(** * Hari-SIH deployment scripts: fallback model artifact, artifact store, health poller

    A shallow embedding of the three scripts

      - [create_fallback_model.py]  (module [CreateFallbackModel]),
      - [test_models.py]            (module [TestModels]),
      - [health_check.py]           (module [HealthCheck]),

    together with the small part of the Python runtime, NumPy and scikit-learn
    that they call.  Stateful code is written in a state-and-exception monad;
    NumPy [float64] values are carried as rationals (the scripts only compare,
    clamp and scale them, all of which are monotone). *)

From Stdlib Require Import QArith ZArith Ascii String List Sorted Lia Lqa.
From stdpp Require Import gmap strings list fin_maps pretty.

Open Scope string_scope.

(** ** The Python runtime *)

(** Exception classes that the modelled calls can raise. *)
Inductive exn_class :=
  | ValueError
  | TypeError
  | IndexError
  | FileNotFoundError
  | FileExistsError
  | IsADirectoryError
  | NotADirectoryError
  | PermissionError
  | OSError
  | PicklingError
  | UnpicklingError
  | EOFError
  | ConnectionError      (* requests.exceptions.ConnectionError *)
  | Timeout              (* requests.exceptions.Timeout *)
  | InvalidURL           (* requests.exceptions.InvalidURL *)
  | MemoryError
  | KeyboardInterrupt.   (* a BaseException that is not an Exception *)

Record exn := Exn { exn_cls : exn_class; exn_str : string }.

(** [isinstance(e, Exception)] *)
Definition is_Exception (e : exn) : bool :=
  match exn_cls e with
  | KeyboardInterrupt => false
  | _ => true
  end.

(** [isinstance(e, requests.exceptions.RequestException)] *)
Definition is_RequestException (e : exn) : bool :=
  match exn_cls e with
  | ConnectionError | Timeout | InvalidURL => true
  | _ => false
  end.

Inductive outcome (A : Type) :=
  | Returned (a : A)
  | Raised (e : exn).
Arguments Returned {A} a.
Arguments Raised {A} e.

(** Statements run in a state of type [S] and either return or raise. *)
Definition ST (S A : Type) : Type := S -> outcome A * S.

Definition ret {S A} (a : A) : ST S A := fun s => (Returned a, s).

Definition raise {S A} (e : exn) : ST S A := fun s => (Raised e, s).

Definition bind {S A B} (m : ST S A) (k : A -> ST S B) : ST S B :=
  fun s =>
    match m s with
    | (Returned a, s') => k a s'
    | (Raised e, s') => (Raised e, s')
    end.

Notation "'let!' x ':=' m 'in' k" := (bind m (fun x => k))
  (at level 10, x pattern, m at level 100, k at level 200).
Notation "m ';;' k" := (bind m (fun _ => k))
  (at level 100, k at level 200, right associativity).

(** [try: body  except <catches> as e: handler e] *)
Definition try_except {S A} (body : ST S A) (catches : exn -> bool)
    (handler : exn -> ST S A) : ST S A :=
  fun s =>
    match body s with
    | (Returned a, s') => (Returned a, s')
    | (Raised e, s') => if catches e then handler e s' else (Raised e, s')
    end.

Fixpoint mapM {S A B} (f : A -> ST S B) (l : list A) : ST S (list B) :=
  match l with
  | [] => ret []
  | x :: l' => let! y := f x in let! ys := mapM f l' in ret (y :: ys)
  end.

Fixpoint replicateM {S A} (n : nat) (m : ST S A) : ST S (list A) :=
  match n with
  | O => ret []
  | Datatypes.S n' => let! y := m in let! ys := replicateM n' m in ret (y :: ys)
  end.

(** The calling convention of a function defined as [def f():]. *)
Definition call0 {S A V} (f : ST S A) (args : list V) : ST S A :=
  match args with
  | [] => f
  | _ => raise (Exn TypeError "takes 0 positional arguments but more were given")
  end.

(** Weakest precondition: the statement returns, and the postcondition holds
    of its result and final state. *)
Definition wp {S A} (m : ST S A) (post : A -> S -> Prop) (s : S) : Prop :=
  match m s with
  | (Returned a, s') => post a s'
  | (Raised _, _) => False
  end.

(** The string ["\n"]. *)
Definition newline : string := String "010"%char EmptyString.

(** Rational comparisons as Python evaluates them. *)
Definition Qltb (a b : Q) : bool := negb (Qle_bool b a).

(** [max(a, b)] keeps its first argument unless the second is greater. *)
Definition py_max (a b : Q) : Q := if Qltb a b then b else a.

(** [min(a, b)] keeps its first argument unless the second is smaller. *)
Definition py_min (a b : Q) : Q := if Qltb b a then b else a.

(** ** NumPy *)

Definition matrix : Type := list (list Q).

(** The process-wide generator behind [np.random]: a state type, the
    seeding function and one sampler per distribution the scripts use.
    Statements about every generator assume only the documented ranges of
    the samplers (see [BitGenerator_ok]); the stream that NumPy actually
    draws from is [MT19937] below. *)
Record BitGenerator := {
  rng_state : Type;
  rng_seed : Z -> rng_state;
  rng_double : rng_state -> Q * rng_state;
  rng_integer : Z -> Z -> rng_state -> Z * rng_state;
  rng_gauss : Q -> Q -> rng_state -> Q * rng_state
}.

(** [random_sample] lies in the half-open interval [0, 1) and
    [randint(low, high)] in [low, high). *)
Record BitGenerator_ok (G : BitGenerator) : Prop := {
  double_range : forall s,
    (0 <= fst (rng_double G s))%Q /\ (fst (rng_double G s) < 1)%Q;
  integer_range : forall lo hi s,
    (lo < hi)%Z -> (lo <= fst (rng_integer G lo hi s) < hi)%Z
}.

(** A small counter-based generator, used to run the scripts on concrete
    draws: the state is a counter, [random_sample] returns sixteenths and
    [normal] returns the mean shifted by up to two deviations. *)
Definition counter_gen : BitGenerator := {|
  rng_state := Z;
  rng_seed := fun x => x;
  rng_double := fun c => (((c mod 16) # 16)%Q, (c + 1)%Z);
  rng_integer := fun lo hi c => ((lo + c mod (hi - lo))%Z, (c + 1)%Z);
  rng_gauss := fun loc scale c =>
    ((loc + scale * inject_Z (c mod 5 - 2))%Q, (c + 1)%Z)
|}.

(** The generator that [np.random] uses: the Mersenne Twister, as in
    NumPy's [mt19937.c].  The state is the array [key] of 624 words of 32
    bits and the position [pos] of the next word. *)
Module MT19937.

Definition N : nat := 624.
Definition M : nat := 397.
Definition MATRIX_A : Z := 0x9908b0df.
Definition UPPER_MASK : Z := 0x80000000.
Definition LOWER_MASK : Z := 0x7fffffff.

Record state := { key : list Z; pos : nat }.

Definition uint32 (z : Z) : Z := Z.land z 0xffffffff.

(** [mt19937_seed]: the words [key[p]], [key[p + 1]], ... from [seed] on. *)
Fixpoint seed_key (n : nat) (p : Z) (seed : Z) : list Z :=
  match n with
  | O => []
  | S n' =>
      seed :: seed_key n' (p + 1)%Z
                (uint32 (1812433253 * Z.lxor seed (Z.shiftr seed 30) + p + 1))
  end.

Definition mt19937_seed (seed : Z) : state :=
  {| key := seed_key N 0 (uint32 seed); pos := N |}.

(** [key[i]] *)
Definition word (k : list Z) (i : nat) : Z := default 0%Z (k !! i).

(** One iteration of the loops of [mt19937_gen], which update [key] in
    place:
    [y = (key[i] & UPPER_MASK) | (key[i + 1] & LOWER_MASK);
     key[i] = key[i + M] ^ (y >> 1) ^ (-(y & 1) & MATRIX_A)],
    the indices being taken modulo [N]. *)
Definition twist_at (k : list Z) (i : nat) : list Z :=
  let y := Z.lor (Z.land (word k i) UPPER_MASK)
                 (Z.land (word k ((i + 1) mod N)) LOWER_MASK) in
  <[i := Z.lxor (Z.lxor (word k ((i + M) mod N)) (Z.shiftr y 1))
                (if Z.odd y then MATRIX_A else 0%Z)]> k.

Definition mt19937_gen (s : state) : state :=
  {| key := fold_left twist_at (seq 0 N) (key s); pos := 0 |}.

Definition temper (y : Z) : Z :=
  let y := Z.lxor y (Z.shiftr y 11) in
  let y := Z.lxor y (Z.land (uint32 (Z.shiftl y 7)) 0x9d2c5680) in
  let y := Z.lxor y (Z.land (uint32 (Z.shiftl y 15)) 0xefc60000) in
  Z.lxor y (Z.shiftr y 18).

(** [mt19937_next]: the next word of 32 bits. *)
Definition mt19937_next (s : state) : Z * state :=
  let s := if (pos s =? N)%nat then mt19937_gen s else s in
  (temper (word (key s) (pos s)), {| key := key s; pos := S (pos s) |}).

(** [mt19937_next_double], behind [random_sample] and [rand]:
    [a = next >> 5, b = next >> 6; (a * 67108864.0 + b) / 9007199254740992.0],
    a multiple of 2^-53, which a [float64] holds exactly. *)
Definition mt19937_next_double (s : state) : Q * state :=
  let (x, s) := mt19937_next s in
  let (y, s) := mt19937_next s in
  let a := Z.shiftr x 5 in
  let b := Z.shiftr y 6 in
  (Qmake (a * 67108864 + b) 9007199254740992, s).

(** The generator of [np.random].  Only [rand] is given by the words of
    the stream here; [randint] and [normal], which reject and transform
    words, are left as parameters. *)
Definition generator (integers : Z -> Z -> state -> Z * state)
    (gauss : Q -> Q -> state -> Q * state) : BitGenerator := {|
  rng_state := state;
  rng_seed := mt19937_seed;
  rng_double := mt19937_next_double;
  rng_integer := integers;
  rng_gauss := gauss
|}.

End MT19937.

Section Numpy.
Context (G : BitGenerator).

Definition draw {A} (f : rng_state G -> A * rng_state G) : ST (rng_state G) A :=
  fun s => let (a, s') := f s in (Returned a, s').

(** [np.random.seed(x)] replaces the state of the global generator. *)
Definition np_random_seed (x : Z) : ST (rng_state G) unit :=
  if ((0 <=? x) && (x <? 2 ^ 32))%Z
  then fun _ => (Returned tt, rng_seed G x)
  else raise (Exn ValueError "Seed must be between 0 and 2**32 - 1").

(** [np.random.rand(n, m)]: [n * m] doubles, filled row by row. *)
Definition np_random_rand (n m : nat) : ST (rng_state G) matrix :=
  replicateM n (replicateM m (draw (rng_double G))).

(** [np.random.randint(low, high, n)] *)
Definition np_random_randint (low high : Z) (n : nat) : ST (rng_state G) (list Z) :=
  if (low <? high)%Z
  then replicateM n (draw (rng_integer G low high))
  else raise (Exn ValueError "low >= high").

(** [np.random.normal(loc, scale)] *)
Definition np_random_normal (loc scale : Q) : ST (rng_state G) Q :=
  if Qle_bool 0 scale
  then draw (rng_gauss G loc scale)
  else raise (Exn ValueError "scale < 0").

End Numpy.

(** [X[:, j] = v] *)
Definition setitem_column (j : nat) (v : list Q) (X : matrix) : matrix :=
  zip_with (fun row x => <[j := x]> row) X v.

(** [X[:, j] *= c] *)
Definition imul_column (j : nat) (c : Q) (X : matrix) : matrix :=
  map (alter (fun x => (x * c)%Q) j) X.

(** [X * v] with the row vector [v] broadcast over the rows of [X]. *)
Definition broadcast_mul (X : matrix) (v : list Q) : matrix :=
  map (fun row => zip_with Qmult row v) X.

(** [X[i, j]] *)
Definition getitem2 {S} (X : matrix) (i j : nat) : ST S Q :=
  match X !! i with
  | Some row =>
      match row !! j with
      | Some x => ret x
      | None => raise (Exn IndexError "index is out of bounds for axis 1")
      end
  | None => raise (Exn IndexError "index is out of bounds for axis 0")
  end.

(** [np.unique] of an array of strings: its distinct elements, sorted. *)
Fixpoint insert_unique (s : string) (l : list string) : list string :=
  match l with
  | [] => [s]
  | x :: r =>
      match String.compare s x with
      | Lt => s :: x :: r
      | Eq => x :: r
      | Gt => x :: insert_unique s r
      end
  end.

Definition np_unique (l : list string) : list string :=
  fold_right insert_unique [] l.

(** ** scikit-learn *)

(** [LabelEncoder]: [fit] stores the sorted distinct labels in [classes_],
    and [transform] maps a label to its position there. *)
Record LabelEncoder := { classes_ : option (list string) }.

Definition LabelEncoder_new : LabelEncoder := {| classes_ := None |}.

Definition LabelEncoder_fit (enc : LabelEncoder) (y : list string) : LabelEncoder :=
  {| classes_ := Some (np_unique y) |}.

Fixpoint index_of (s : string) (l : list string) : option nat :=
  match l with
  | [] => None
  | x :: r => if String.eqb s x then Some O else Datatypes.S <$> index_of s r
  end.

Definition LabelEncoder_transform (enc : LabelEncoder) (s : string) : option nat :=
  match classes_ enc with
  | Some cs => index_of s cs
  | None => None
  end.

Record RandomForestRegressor := { n_estimators : Z; random_state : Z }.

(** A multi-output regressor is opaque here: it remembers its estimator
    settings and, once fitted, the training matrices it was fitted on. *)
Record MultiOutputRegressor := {
  estimator : RandomForestRegressor;
  fitted_on : option (matrix * matrix)
}.

Definition MultiOutputRegressor_new (e : RandomForestRegressor) : MultiOutputRegressor :=
  {| estimator := e; fitted_on := None |}.

Definition MultiOutputRegressor_fit (m : MultiOutputRegressor) (X y : matrix)
    : MultiOutputRegressor :=
  {| estimator := estimator m; fitted_on := Some (X, y) |}.

(** ** Python values stored in an artifact *)

#[warnings="-register-all"]
Inductive value :=
  | VNone
  | VStr (s : string)
  | VInt (n : Z)
  | VFunction                      (* a lambda: an object pickle refuses *)
  | VEncoder (e : LabelEncoder)
  | VRegressor (m : MultiOutputRegressor)
  | VDict (d : gmap string value).

Fixpoint picklable (v : value) : bool :=
  match v with
  | VFunction => false
  | VDict d => map_fold (fun _ x acc => picklable x && acc) true d
  | _ => true
  end.

(** [x is None], for a variable that holds either the [None] that a
    function returned of its own ([None]) or a value it obtained, which
    may itself be [None] ([Some VNone]). *)
Definition is_None (x : option value) : bool :=
  match x with
  | None | Some VNone => true
  | Some _ => false
  end.

(** ** The file system and the console *)

(** What [pickle.load] finds in a regular file: a pickled value, bytes it
    rejects (a corrupt or version-incompatible file), or no byte at all. *)
Inductive contents :=
  | Pickle (v : value)
  | Corrupt (why : string)
  | Empty.

Inductive node :=
  | Directory
  | RegularFile (c : contents).

(** Paths are relative to the working directory, which always exists.
    [denied] lists the paths the process may not open or create, and
    [disk_full] says that the device has no free block.  Bytes are not
    counted: what is written to a device with a free block is taken to
    fit. *)
Record filesystem := {
  nodes : gmap string node;
  denied : gset string;
  disk_full : bool
}.

Definition with_nodes (f : filesystem) (n : gmap string node) : filesystem :=
  {| nodes := n; denied := denied f; disk_full := disk_full f |}.

(** The node holds bytes, which the device gets back when the file is
    truncated. *)
Definition holds_data (n : option node) : bool :=
  match n with
  | Some (RegularFile (Pickle _)) | Some (RegularFile (Corrupt _)) => true
  | _ => false
  end.

(** The file system once [path] is created, or truncated to length 0. *)
Definition truncated (f : filesystem) (path : string) : filesystem :=
  {| nodes := <[path := RegularFile Empty]> (nodes f);
     denied := denied f;
     disk_full := disk_full f && negb (holds_data (nodes f !! path)) |}.

(** [os.path.dirname] *)
Fixpoint dirname_aux (s : string) : option string :=
  match s with
  | EmptyString => None
  | String c r =>
      match dirname_aux r with
      | Some d => Some (String c d)
      | None => if Ascii.eqb c "/"%char then Some EmptyString else None
      end
  end.

Definition dirname (s : string) : string := default EmptyString (dirname_aux s).

Definition is_directory (f : filesystem) (d : string) : bool :=
  if String.eqb d EmptyString then true
  else match nodes f !! d with
       | Some Directory => true
       | _ => false
       end.

Section World.
Context (G : BitGenerator).

(** The state the two model scripts run in. *)
Record world := {
  np_random : rng_state G;
  fs : filesystem;
  stdout : list string
}.

Definition with_fs (w : world) (f : filesystem) : world :=
  {| np_random := np_random w; fs := f; stdout := stdout w |}.

(** Run a sampling statement on the global generator of the process. *)
Definition lift_rng {A} (m : ST (rng_state G) A) : ST world A :=
  fun w =>
    let (r, s') := m (np_random w) in
    (r, {| np_random := s'; fs := fs w; stdout := stdout w |}).

Definition print (line : string) : ST world unit :=
  fun w =>
    (Returned tt,
     {| np_random := np_random w; fs := fs w; stdout := stdout w ++ [line] |}).

(** [os.makedirs(name, exist_ok=True)] for a single path component. *)
Definition os_makedirs (name : string) : ST world unit :=
  fun w =>
    match nodes (fs w) !! name with
    | Some Directory => (Returned tt, w)
    | Some (RegularFile _) =>
        (Raised (Exn FileExistsError ("[Errno 17] File exists: " ++ name)), w)
    | None =>
        if bool_decide (name ∈ denied (fs w))
        then (Raised (Exn PermissionError ("[Errno 13] Permission denied: " ++ name)), w)
        else (Returned tt, with_fs w (with_nodes (fs w) (<[name := Directory]> (nodes (fs w)))))
    end.

(** [os.path.exists(path)] *)
Definition os_path_exists (path : string) : ST world bool :=
  fun w => (Returned (bool_decide (is_Some (nodes (fs w) !! path))), w).

(** [open(path, 'wb')]: creates or truncates the file. *)
Definition open_wb (path : string) : ST world unit :=
  fun w =>
    if negb (is_directory (fs w) (dirname path))
    then (Raised (Exn FileNotFoundError ("[Errno 2] No such file or directory: " ++ path)), w)
    else match nodes (fs w) !! path with
         | Some Directory =>
             (Raised (Exn IsADirectoryError ("[Errno 21] Is a directory: " ++ path)), w)
         | _ =>
             if bool_decide (path ∈ denied (fs w))
             then (Raised (Exn PermissionError ("[Errno 13] Permission denied: " ++ path)), w)
             else (Returned tt, with_fs w (truncated (fs w) path))
         end.

(** [pickle.dump(obj, f)] on the file just opened at [path], and the
    [close] that ends the [with] block. *)
Definition pickle_dump (obj : value) (path : string) : ST world unit :=
  fun w =>
    if negb (picklable obj)
    then (Raised (Exn PicklingError "Can't pickle local object"), w)
    else if disk_full (fs w)
    then (Raised (Exn OSError "[Errno 28] No space left on device"), w)
    else (Returned tt,
          with_fs w (with_nodes (fs w) (<[path := RegularFile (Pickle obj)]> (nodes (fs w))))).

(** [open(path, 'rb')] *)
Definition open_rb (path : string) : ST world contents :=
  fun w =>
    match nodes (fs w) !! path with
    | None =>
        (Raised (Exn FileNotFoundError ("[Errno 2] No such file or directory: " ++ path)), w)
    | Some Directory =>
        (Raised (Exn IsADirectoryError ("[Errno 21] Is a directory: " ++ path)), w)
    | Some (RegularFile c) =>
        if bool_decide (path ∈ denied (fs w))
        then (Raised (Exn PermissionError ("[Errno 13] Permission denied: " ++ path)), w)
        else (Returned c, w)
    end.

(** [pickle.load(f)] *)
Definition pickle_load (c : contents) : ST world value :=
  match c with
  | Pickle v => ret v
  | Corrupt why => raise (Exn UnpicklingError why)
  | Empty => raise (Exn EOFError "Ran out of input")
  end.

End World.

Arguments np_random {G} w.
Arguments fs {G} w.
Arguments stdout {G} w.

(** ** create_fallback_model.py *)

Module CreateFallbackModel.
Section WithGenerator.
Context (G : BitGenerator).

Definition metals : list string :=
  ["Aluminium"; "Steel"; "Copper"; "Zinc"; "Lead"; "Nickel"; "Tin"; "Gold"].
Definition processes : list string := ["Primary"; "Recycled"; "Hybrid"].
Definition eol_options : list string := ["Recycled"; "Landfilled"; "Reused"].

(** [0.3 if X_train[i, 1] == 1 else 1.0] *)
Definition process_factor (x : Q) : Q := if Qeq_bool x 1 then 0.3 else 1.0.

(** [0.8 if X_train[i, 1] == 1 else 0.3] *)
Definition base_circ (x : Q) : Q := if Qeq_bool x 1 then 0.8 else 0.3.

(** [70 if X_train[i, 1] == 1 else 20] *)
Definition recycled_content_loc (x : Q) : Q := if Qeq_bool x 1 then 70 else 20.

(** Body of the first loop: the row assigned to [y_env[i]]. *)
Definition y_env_row (X_train : matrix) (i : nat) : ST (rng_state G) (list Q) :=
  let! x := getitem2 X_train i 1 in
  let process_factor := process_factor x in
  let! energy := np_random_normal G (50 * process_factor) 15 in
  let! emissions := np_random_normal G (5 * process_factor) 2 in
  let! water := np_random_normal G (20 * process_factor) 8 in
  ret [py_max 1 energy; py_max 0.1 emissions; py_max 0.5 water].

(** Body of the second loop: the row assigned to [y_circ[i]]. *)
Definition y_circ_row (X_train : matrix) (i : nat) : ST (rng_state G) (list Q) :=
  let! x := getitem2 X_train i 1 in
  let base_circ := base_circ x in
  let! circularity := np_random_normal G base_circ 0.1 in
  let! x' := getitem2 X_train i 1 in
  let! recycled_content := np_random_normal G (recycled_content_loc x') 15 in
  let! reuse_potential := np_random_normal G base_circ 0.1 in
  ret [py_max 0 (py_min 1 circularity);
       py_max 0 (py_min 100 recycled_content);
       py_max 0 (py_min 1 reuse_potential)].

(** The synthetic training data: the seeding call and the statements from
    [X_train = np.random.rand(n_samples, 13)] to the end of the second
    loop.  Each loop overwrites row [i] of a zero matrix with [n_samples]
    rows at iteration [i], so its result is the list of the rows it
    computes, in order. *)
Definition training_data (n_samples : nat)
    : ST (rng_state G) (matrix * matrix * matrix) :=
  np_random_seed G 42 ;;
  let! X_train := np_random_rand G n_samples 13 in
  let! metal := np_random_randint G 0 (Z.of_nat (length metals)) n_samples in
  let X_train := setitem_column 0 (map inject_Z metal) X_train in
  let! process := np_random_randint G 0 (Z.of_nat (length processes)) n_samples in
  let X_train := setitem_column 1 (map inject_Z process) X_train in
  let! eol := np_random_randint G 0 (Z.of_nat (length eol_options)) n_samples in
  let X_train := setitem_column 2 (map inject_Z eol) X_train in
  let X_train := imul_column 3 2000 X_train in
  let X_train := imul_column 4 20 X_train in
  let X_train := imul_column 5 30 X_train in
  let X_train := imul_column 6 5 X_train in
  let! y_env := mapM (y_env_row X_train) (seq 0 n_samples) in
  let! y_circ := mapM (y_circ_row X_train) (seq 0 n_samples) in
  ret (X_train, y_env, y_circ).

Definition create_simple_fallback_model : ST (world G) (gmap string value) :=
  print G "Creating fallback model for Railway deployment..." ;;
  let metal_encoder := LabelEncoder_new in
  let process_encoder := LabelEncoder_new in
  let eol_encoder := LabelEncoder_new in
  let metal_encoder := LabelEncoder_fit metal_encoder metals in
  let process_encoder := LabelEncoder_fit process_encoder processes in
  let eol_encoder := LabelEncoder_fit eol_encoder eol_options in
  let env_model :=
    MultiOutputRegressor_new {| n_estimators := 50; random_state := 42 |} in
  let circ_model :=
    MultiOutputRegressor_new {| n_estimators := 50; random_state := 42 |} in
  let n_samples := 1000%nat in
  let! (X_train, y_env, y_circ) := lift_rng G (training_data n_samples) in
  let env_model := MultiOutputRegressor_fit env_model X_train y_env in
  let circ_model := MultiOutputRegressor_fit circ_model X_train y_circ in
  let model_data : gmap string value :=
    list_to_map [
      ("model_type", VStr "optimized_dual_target");
      ("environmental_model", VRegressor env_model);
      ("circularity_models",
        VDict (list_to_map [("RandomForest", VRegressor circ_model)]));
      ("circularity_best_model", VStr "RandomForest");
      ("label_encoders",
        VDict (list_to_map [
          ("Metal", VEncoder metal_encoder);
          ("Process_Type", VEncoder process_encoder);
          ("End_of_Life", VEncoder eol_encoder)]));
      ("metadata",
        VDict (list_to_map [
          ("model_version", VStr "railway_fallback_v1.0");
          ("feature_alignment", VStr "corrected");
          ("features_count", VInt 13);
          ("created_by", VStr "railway_deployment_fallback");
          ("description",
            VStr "Simple fallback model for Railway deployment when LFS models unavailable")]))
    ] in
  ret model_data.

Definition save_fallback_model : ST (world G) bool :=
  os_makedirs G "models" ;;
  let! model_data := create_simple_fallback_model in
  let fallback_path := "models/railway_fallback_model.pkl" in
  try_except
    (open_wb G fallback_path ;;
     pickle_dump G (VDict model_data) fallback_path ;;
     print G ("‚úÖ Fallback model saved to " ++ fallback_path) ;;
     print G "üìä Model includes:" ;;
     print G "  - Environmental predictions (Energy, Emissions, Water)" ;;
     print G "  - Circularity predictions (Index, Recycled Content, Reuse Potential)" ;;
     print G "  - Label encoders for categorical variables" ;;
     print G "  - Compatible with 13-feature input structure" ;;
     ret true)
    is_Exception
    (fun e =>
       print G ("‚ùå Failed to save fallback model: " ++ exn_str e) ;;
       ret false).

(** The statements under [if __name__ == "__main__":]. *)
Definition main : ST (world G) unit :=
  print G "üöÄ Creating Railway deployment fallback model..." ;;
  let! success := save_fallback_model in
  if (success : bool) then
    print G (newline ++ "‚úÖ SUCCESS: Fallback model created!") ;;
    print G "The Streamlit app should now work on Railway."
  else
    print G (newline ++ "‚ùå FAILED: Could not create fallback model.").

End WithGenerator.
End CreateFallbackModel.

(** ** test_models.py *)

Module TestModels.
Section WithGenerator.
Context (G : BitGenerator).

Definition model_paths : list string := [
  "models/corrected_optimized_dual_target_model.pkl";
  "models/clean_optimized_dual_target_model.pkl";
  "models/lca_model.pkl";
  "models/final_optimized_lca_model.pkl"
].

(** The [for path in ...] loop of [test_model_loading] and the final
    [return None, None].  The [try] block either returns from the function
    ([Some]) or, after its handler, lets the loop go on ([None]). *)
Fixpoint test_model_loading_from (paths : list string)
    : ST (world G) (option string * option value) :=
  match paths with
  | [] => ret (None, None)
  | path :: rest =>
      let! present := os_path_exists G path in
      if (present : bool) then
        let! returned :=
          try_except
            (print G ("Testing " ++ path ++ "...") ;;
             let! f := open_rb G path in
             let! model := pickle_load G f in
             print G ("✅ " ++ path ++ " loaded successfully!") ;;
             ret (Some (path, model)))
            is_Exception
            (fun e =>
               print G ("❌ " ++ path ++ " failed: " ++ exn_str e) ;;
               ret None) in
        match returned with
        | Some (path, model) => ret (Some path, Some model)
        | None => test_model_loading_from rest
        end
      else test_model_loading_from rest
  end.

Definition test_model_loading : ST (world G) (option string * option value) :=
  test_model_loading_from model_paths.

Definition metals : list string :=
  ["Aluminium"; "Steel"; "Copper"; "Zinc"; "Lead"; "Nickel"; "Tin"; "Gold"].
Definition processes : list string := ["Primary"; "Recycled"; "Hybrid"].
Definition eol_options : list string := ["Recycled"; "Landfilled"; "Reused"].

(** The sample data: the seeding call and the three [np.random.rand]
    statements (the statements in between draw nothing). *)
Definition sample_data (n_samples : nat)
    : ST (rng_state G) (matrix * matrix * matrix) :=
  np_random_seed G 42 ;;
  let! X_sample := np_random_rand G n_samples 13 in
  let! r_env := np_random_rand G n_samples 3 in
  let y_env := broadcast_mul r_env [100%Q; 10%Q; 50%Q] in
  let! r_circ := np_random_rand G n_samples 3 in
  let y_circ := broadcast_mul r_circ [1%Q; 100%Q; 1%Q] in
  ret (X_sample, y_env, y_circ).

Definition create_fallback_model : ST (world G) (gmap string value) :=
  print G "Creating fallback model..." ;;
  let metal_encoder := LabelEncoder_new in
  let process_encoder := LabelEncoder_new in
  let eol_encoder := LabelEncoder_new in
  let metal_encoder := LabelEncoder_fit metal_encoder metals in
  let process_encoder := LabelEncoder_fit process_encoder processes in
  let eol_encoder := LabelEncoder_fit eol_encoder eol_options in
  let environmental_model :=
    MultiOutputRegressor_new {| n_estimators := 10; random_state := 42 |} in
  let random_forest :=
    MultiOutputRegressor_new {| n_estimators := 10; random_state := 42 |} in
  let n_samples := 100%nat in
  let! (X_sample, y_env, y_circ) := lift_rng G (sample_data n_samples) in
  let environmental_model := MultiOutputRegressor_fit environmental_model X_sample y_env in
  let circularity_models : gmap string value :=
    list_to_map [("RandomForest",
                  VRegressor (MultiOutputRegressor_fit random_forest X_sample y_circ))] in
  let model_data : gmap string value :=
    list_to_map [
      ("model_type", VStr "optimized_dual_target");
      ("environmental_model", VRegressor environmental_model);
      ("circularity_models", VDict circularity_models);
      ("circularity_best_model", VStr "RandomForest");
      ("label_encoders",
        VDict (list_to_map [
          ("Metal", VEncoder metal_encoder);
          ("Process_Type", VEncoder process_encoder);
          ("End_of_Life", VEncoder eol_encoder)]));
      ("metadata",
        VDict (list_to_map [
          ("model_version", VStr "fallback_v1.0");
          ("feature_alignment", VStr "corrected");
          ("features_count", VInt 13);
          ("created_by", VStr "fallback_generator")]))
    ] in
  ret model_data.

Definition save_fallback_model (model_data : value) : ST (world G) bool :=
  try_except
    (open_wb G "models/fallback_model.pkl" ;;
     pickle_dump G model_data "models/fallback_model.pkl" ;;
     print G "✅ Fallback model saved successfully!" ;;
     ret true)
    is_Exception
    (fun e =>
       print G ("❌ Failed to save fallback model: " ++ exn_str e) ;;
       ret false).

(** The statements under [if __name__ == "__main__":]. *)
Definition main : ST (world G) unit :=
  print G "🔍 Testing model loading..." ;;
  let! (working_model_path, working_model) := test_model_loading in
  if is_None working_model then
    print G (newline ++ "⚠️ No working models found. Creating fallback...") ;;
    let! fallback_model := create_fallback_model in
    let! saved := save_fallback_model (VDict fallback_model) in
    if (saved : bool) then
      print G (newline ++ "✅ Fallback model created and saved!") ;;
      print G "The app should now work with basic functionality."
    else
      print G (newline ++ "❌ Failed to create fallback model.")
  else
    print G ((newline ++ "✅ Working model found: ") ++ default "None" working_model_path) ;;
    print G "Models are working correctly!".

End WithGenerator.
End TestModels.

(** ** health_check.py *)

Module HealthCheck.

(** What one [requests.get] call does: it returns a response with a status
    code, or raises. *)
Inductive http_outcome :=
  | Response (status_code : Z)
  | Fails (e : exn).

Inductive event :=
  | Get (url : string) (timeout : Z)
  | Sleep (seconds : Z)
  | Print (line : string).

(** The state the health check runs in: the process environment, what the
    network answers to the k-th request issued (counting from 0), and the
    events so far. *)
Record host := {
  environ : gmap string string;
  network : nat -> http_outcome;
  trace : list event
}.

Definition log (h : host) (ev : event) : host :=
  {| environ := environ h; network := network h; trace := trace h ++ [ev] |}.

Fixpoint requests_sent (t : list event) : nat :=
  match t with
  | [] => O
  | Get _ _ :: t' => Datatypes.S (requests_sent t')
  | _ :: t' => requests_sent t'
  end.

Fixpoint sleeps (t : list event) : nat :=
  match t with
  | [] => O
  | Sleep _ :: t' => Datatypes.S (sleeps t')
  | _ :: t' => sleeps t'
  end.

(** [os.environ.get(key, default)] *)
Definition os_environ_get (key dflt : string) : ST host string :=
  fun h => (Returned (default dflt (environ h !! key)), h).

(** [requests.get(url, timeout=timeout).status_code] *)
Definition requests_get (url : string) (timeout : Z) : ST host Z :=
  fun h =>
    match network h (requests_sent (trace h)) with
    | Response status_code => (Returned status_code, log h (Get url timeout))
    | Fails e => (Raised e, log h (Get url timeout))
    end.

Definition time_sleep (seconds : Z) : ST host unit :=
  fun h => (Returned tt, log h (Sleep seconds)).

Definition print (line : string) : ST host unit :=
  fun h => (Returned tt, log h (Print line)).

Definition max_attempts : nat := 30.

(** The [for attempt in range(max_attempts)] loop of [check_health] and the
    statements after it.  The [try] block either returns from the function
    ([Some]) or falls through to the [time.sleep(2)] ([None]). *)
Fixpoint check_health_from (port : string) (attempts : list nat) : ST host bool :=
  match attempts with
  | [] =>
      print ("❌ Health check failed after " ++ pretty max_attempts ++ " attempts") ;;
      ret false
  | attempt :: rest =>
      let! returned :=
        try_except
          (let! status_code :=
             requests_get ("http://localhost:" ++ port ++ "/_stcore/health") 5 in
           if (status_code =? 200)%Z then
             print ("✅ Health check passed on port " ++ port) ;;
             ret (Some true)
           else ret None)
          is_RequestException
          (fun e =>
             print ("Attempt " ++ pretty (attempt + 1)%nat ++ "/" ++ pretty max_attempts
                    ++ ": Health check failed - " ++ exn_str e) ;;
             ret None) in
      match returned with
      | Some result => ret result
      | None => time_sleep 2 ;; check_health_from port rest
      end
  end.

Definition check_health : ST host bool :=
  let! port := os_environ_get "PORT" "8501" in
  check_health_from port (seq 0 max_attempts).

(** The statements under [if __name__ == "__main__":]; the value returned
    is the status passed to [sys.exit]. *)
Definition main : ST host Z :=
  let! success := check_health in
  ret (if (success : bool) then 0%Z else 1%Z).

End HealthCheck.

(** * Properties of artifacts and training data *)

(** [needle in hay] for strings. *)
Fixpoint contains (needle hay : string) : bool :=
  String.prefix needle hay ||
  match hay with
  | EmptyString => false
  | String _ rest => contains needle rest
  end.

(** The training matrices behind the environmental regressor. *)
Definition environmental_training (a : gmap string value) : option (matrix * matrix) :=
  match a !! "environmental_model" with
  | Some (VRegressor m) => fitted_on m
  | _ => None
  end.

(** The training matrices behind the circularity regressor called [name]. *)
Definition circularity_training (a : gmap string value) (name : string)
    : option (matrix * matrix) :=
  match a !! "circularity_models" with
  | Some (VDict models) =>
      match models !! name with
      | Some (VRegressor m) => fitted_on m
      | _ => None
      end
  | _ => None
  end.

(** The label encoder stored for the categorical field [field]. *)
Definition label_encoder (a : gmap string value) (field : string) : option LabelEncoder :=
  match a !! "label_encoders" with
  | Some (VDict encoders) =>
      match encoders !! field with
      | Some (VEncoder e) => Some e
      | _ => None
      end
  | _ => None
  end.

(** The key layout that consumers of an artifact rely on. *)
Definition artifact_schema_ok (a : gmap string value) : Prop :=
  dom a = ({[ "model_type"; "environmental_model"; "circularity_models";
              "circularity_best_model"; "label_encoders"; "metadata" ]} : gset string)
  /\ (exists encoders : gmap string value,
        a !! "label_encoders" = Some (VDict encoders)
        /\ dom encoders = ({[ "Metal"; "Process_Type"; "End_of_Life" ]} : gset string))
  /\ (exists (metadata : gmap string value) (version provenance : string),
        a !! "metadata" = Some (VDict metadata)
        /\ metadata !! "model_version" = Some (VStr version)
        /\ metadata !! "features_count" = Some (VInt 13)
        /\ metadata !! "created_by" = Some (VStr provenance)
        /\ contains "fallback" provenance = true).

(** [circularity_best_model] names an entry of [circularity_models]. *)
Definition best_model_present (a : gmap string value) : Prop :=
  exists (best : string) (models : gmap string value),
    a !! "circularity_best_model" = Some (VStr best)
    /\ a !! "circularity_models" = Some (VDict models)
    /\ best ∈ dom models.

(** A row agrees with a list of conditions, one per column. *)
Definition row_matches (spec : list (Q -> Prop)) (row : list Q) : Prop :=
  Forall2 (fun (P : Q -> Prop) x => P x) spec row.

(** An integer code below [k], stored as a float. *)
Definition is_code (k : Z) (x : Q) : Prop :=
  exists z : Z, x = inject_Z z /\ (0 <= z < k)%Z.

Definition within (lo hi x : Q) : Prop := (lo <= x)%Q /\ (x <= hi)%Q.

Definition unit_interval (x : Q) : Prop := (0 <= x)%Q /\ (x < 1)%Q.

(** The thirteen feature columns: three categorical codes (Metal,
    Process_Type, End_of_Life), four rescaled columns and six engineered
    columns left in the unit interval. *)
Definition feature_columns : list (Q -> Prop) :=
  [is_code (Z.of_nat (length CreateFallbackModel.metals));
   is_code (Z.of_nat (length CreateFallbackModel.processes));
   is_code (Z.of_nat (length CreateFallbackModel.eol_options));
   within 0 2000; within 0 20; within 0 30; within 0 5;
   unit_interval; unit_interval; unit_interval;
   unit_interval; unit_interval; unit_interval].

Definition feature_matrix_ok (n : nat) (X : matrix) : Prop :=
  length X = n /\ Forall (row_matches feature_columns) X.


(** Energy, emissions and water are strictly positive. *)
Definition environmental_row_positive (row : list Q) : Prop :=
  exists energy emissions water : Q,
    row = [energy; emissions; water]
    /\ (0 < energy)%Q /\ (0 < emissions)%Q /\ (0 < water)%Q.

(** Energy, emissions and water are floored at 1, 0.1 and 0.5. *)
Definition environmental_row_floored (row : list Q) : Prop :=
  exists energy emissions water : Q,
    row = [energy; emissions; water]
    /\ (1 <= energy)%Q /\ (0.1 <= emissions)%Q /\ (0.5 <= water)%Q.

(** Energy, emissions and water are raw draws scaled by 100, 10 and 50:
    non-negative, with no positive floor. *)
Definition environmental_row_scaled (row : list Q) : Prop :=
  exists energy emissions water : Q,
    row = [energy; emissions; water]
    /\ (0 <= energy)%Q /\ (energy < 100)%Q
    /\ (0 <= emissions)%Q /\ (emissions < 10)%Q
    /\ (0 <= water)%Q /\ (water < 50)%Q.

(** Energy, emissions and water are all at least [m]. *)
Definition environmental_row_at_least (m : Q) (row : list Q) : Prop :=
  exists energy emissions water : Q,
    row = [energy; emissions; water]
    /\ (m <= energy)%Q /\ (m <= emissions)%Q /\ (m <= water)%Q.

(** Circularity index and reuse potential in [0, 1], recycled content in
    [0, 100]. *)
Definition circularity_row_ok (row : list Q) : Prop :=
  exists circularity recycled_content reuse_potential : Q,
    row = [circularity; recycled_content; reuse_potential]
    /\ within 0 1 circularity
    /\ within 0 100 recycled_content
    /\ within 0 1 reuse_potential.

(** The two conditions above as tests, to evaluate on computed rows. *)
Definition environmental_row_at_leastb (m : Q) (row : list Q) : bool :=
  match row with
  | [energy; emissions; water] =>
      Qle_bool m energy && Qle_bool m emissions && Qle_bool m water
  | _ => false
  end.

Definition circularity_row_okb (row : list Q) : bool :=
  match row with
  | [circularity; recycled_content; reuse_potential] =>
      Qle_bool 0 circularity && Qle_bool circularity 1
      && Qle_bool 0 recycled_content && Qle_bool recycled_content 100
      && Qle_bool 0 reuse_potential && Qle_bool reuse_potential 1
  | _ => false
  end.

(** The sampling statement returned [n] rows of environmental targets
    passing [env_ok] and [n] rows of circularity targets passing
    [circ_ok]. *)
Definition sampled_targetsb (n : nat) (env_ok circ_ok : list Q -> bool)
    (r : outcome (matrix * matrix * matrix)) : bool :=
  match r with
  | Returned (_, y_env, y_circ) =>
      (length y_env =? n)%nat && forallb env_ok y_env
      && (length y_circ =? n)%nat && forallb circ_ok y_circ
  | Raised _ => false
  end.

(** The targets an artifact was fitted on: [n] rows each, with a condition
    on every row of the environmental targets and one on every row of the
    circularity targets. *)
Definition training_targets (n : nat) (env_ok circ_ok : list Q -> Prop)
    (a : gmap string value) : Prop :=
  exists X y_env y_circ : matrix,
    environmental_training a = Some (X, y_env)
    /\ circularity_training a "RandomForest" = Some (X, y_circ)
    /\ (length y_env = n /\ Forall env_ok y_env)
    /\ (length y_circ = n /\ Forall circ_ok y_circ).


(** Conditions on a column that is a code drawn under [K], and on one that
    is a draw under [U] multiplied by [c]. *)
Definition code_with (K : Z -> Prop) (x : Q) : Prop :=
  exists z : Z, x = inject_Z z /\ K z.

Definition scaled_with (U : Q -> Prop) (c : Q) (x : Q) : Prop :=
  exists u : Q, U u /\ x = (u * c)%Q.

(** A row of three raw draws under [U], scaled by [a], [b] and [c]. *)
Definition scaled_row (U : Q -> Prop) (a b c : Q) (row : list Q) : Prop :=
  exists u1 u2 u3 : Q,
    U u1 /\ U u2 /\ U u3 /\ row = [(u1 * a)%Q; (u2 * b)%Q; (u3 * c)%Q].

(** What a builder stores in the artifact [a]: the schema, an existing best
    model, regressors fitted on matrices satisfying [P], and label encoders
    fitted on the three category lists. *)
Definition built_from (P : matrix -> matrix -> matrix -> Prop)
    (metals processes eol_options : list string) (a : gmap string value) : Prop :=
  artifact_schema_ok a
  /\ best_model_present a
  /\ (exists X y_env y_circ : matrix,
        environmental_training a = Some (X, y_env)
        /\ circularity_training a "RandomForest" = Some (X, y_circ)
        /\ P X y_env y_circ)
  /\ label_encoder a "Metal" = Some (LabelEncoder_fit LabelEncoder_new metals)
  /\ label_encoder a "Process_Type" = Some (LabelEncoder_fit LabelEncoder_new processes)
  /\ label_encoder a "End_of_Life" = Some (LabelEncoder_fit LabelEncoder_new eol_options).

(** Concrete states to run the scripts from. *)
Definition empty_fs : filesystem :=
  {| nodes := ∅; denied := ∅; disk_full := false |}.

Definition fresh_world (G : BitGenerator) (s : rng_state G) : world G :=
  {| np_random := s; fs := empty_fs; stdout := [] |}.

(** Lexicographic order on strings, character codes compared as numbers. *)
Definition string_lt (a b : string) : Prop := String.compare a b = Lt.

(** The encoder gives every category of [cats] a code, and codes follow the
    lexicographic order of the labels. *)
Definition codes_ascending (enc : LabelEncoder) (cats : list string) : Prop :=
  (forall c, c ∈ cats -> is_Some (LabelEncoder_transform enc c))
  /\ (forall a b i j,
        LabelEncoder_transform enc a = Some i ->
        LabelEncoder_transform enc b = Some j ->
        ((i < j)%nat <-> string_lt a b)).

(** The three encoders of an artifact are fitted on the given category
    lists and assign ascending codes; Process_Type is coded Hybrid 0,
    Primary 1, Recycled 2. *)
Definition label_encoders_ok (metals processes eol_options : list string)
    (a : gmap string value) : Prop :=
  (forall field cats,
      (field, cats) ∈ [("Metal", metals); ("Process_Type", processes);
                       ("End_of_Life", eol_options)] ->
      exists enc,
        label_encoder a field = Some enc
        /\ enc = LabelEncoder_fit LabelEncoder_new cats
        /\ codes_ascending enc cats)
  /\ (exists enc,
        label_encoder a "Process_Type" = Some enc
        /\ LabelEncoder_transform enc "Hybrid" = Some 0%nat
        /\ LabelEncoder_transform enc "Primary" = Some 1%nat
        /\ LabelEncoder_transform enc "Recycled" = Some 2%nat).

(** How the training loops of [create_simple_fallback_model] treat the
    row whose Process_Type column holds the code of [label]: the factor on
    the environmental means, and the means of the circularity targets. *)
Definition baseline_of (a : gmap string value) (label : string) (factor circ recycled : Q)
    : Prop :=
  exists enc code,
    label_encoder a "Process_Type" = Some enc
    /\ LabelEncoder_transform enc label = Some code
    /\ CreateFallbackModel.process_factor (inject_Z (Z.of_nat code)) = factor
    /\ CreateFallbackModel.base_circ (inject_Z (Z.of_nat code)) = circ
    /\ CreateFallbackModel.recycled_content_loc (inject_Z (Z.of_nat code)) = recycled.

(** An attempt that the health check retries rather than propagates: any
    response, and any failure that [requests] reports as a
    [RequestException] (connection failure, timeout). *)
Definition retryable (o : HealthCheck.http_outcome) : Prop :=
  match o with
  | HealthCheck.Response _ => True
  | HealthCheck.Fails e => is_RequestException e = true
  end.

(** The attempt received HTTP status 200. *)
Definition succeeds (o : HealthCheck.http_outcome) : bool :=
  match o with
  | HealthCheck.Response status_code => (status_code =? 200)%Z
  | HealthCheck.Fails _ => false
  end.

(** A host whose endpoint refuses the first two connections and answers
    200 from the third request on. *)
Definition flaky_host : HealthCheck.host := {|
  HealthCheck.environ := ∅;
  HealthCheck.network := fun k =>
    if (k <? 2)%nat
    then HealthCheck.Fails (Exn ConnectionError "Connection refused")
    else HealthCheck.Response 200;
  HealthCheck.trace := []
|}.

(** The candidate [p] is a readable pickle of [v]. *)
Definition loads (f : filesystem) (p : string) (v : value) : Prop :=
  nodes f !! p = Some (RegularFile (Pickle v)) /\ p ∉ denied f.

(** The candidate [p] exists, as a file or as a directory. *)
Definition present (f : filesystem) (p : string) : Prop := is_Some (nodes f !! p).

(** The lines [test_model_loading] prints about a candidate. *)
Definition testing_line (p : string) : string := "Testing " ++ p ++ "...".
Definition loaded_line (p : string) : string := "✅ " ++ p ++ " loaded successfully!".
Definition failed_line (p : string) (e : exn) : string :=
  "❌ " ++ p ++ " failed: " ++ exn_str e.

(** The world after printing [lines]. *)
Definition say {G} (w : world G) (lines : list string) : world G :=
  {| np_random := np_random w; fs := fs w; stdout := stdout w ++ lines |}.

(** What a fallback-chain lookup over [paths] returns and prints: the
    candidates are split into those passed over, none of which loads, and
    the rest, whose head (if any) is the one returned.  A candidate passed
    over that is present has a failure line; every line printed is about a
    present candidate. *)
Definition first_loadable (f : filesystem) (paths : list string)
    (res : option string * option value) (lines : list string) : Prop :=
  exists skipped rest : list string,
    paths = (skipped ++ rest)%list
    /\ (forall q, q ∈ skipped -> forall u, ~ loads f q u)
    /\ match rest with
       | p :: _ => exists v, loads f p v /\ res = (Some p, Some v)
       | [] => res = (None, None)
       end
    /\ (forall q, q ∈ skipped -> present f q -> exists e, failed_line q e ∈ lines)
    /\ (forall line, line ∈ lines ->
          exists q, q ∈ paths /\ present f q
                    /\ (line = testing_line q \/ line = loaded_line q
                        \/ exists e, line = failed_line q e)).

(** The line [save_fallback_model] of [test_models.py] prints when saving
    fails with [e]. *)
Definition save_failed_line (e : exn) : string := "❌ Failed to save fallback model: " ++ exn_str e.

(** ** Further properties: the health check *)

(** The URL that [check_health] polls on [port]. *)
Definition health_url (port : string) : string :=
  "http://localhost:" ++ port ++ "/_stcore/health".

(** Every request goes to the health URL with a 5 second timeout, and
    every pause lasts 2 seconds. *)
Definition well_formed_event (port : string) (ev : HealthCheck.event) : Prop :=
  match ev with
  | HealthCheck.Get url timeout => url = health_url port /\ timeout = 5%Z
  | HealthCheck.Sleep seconds => seconds = 2%Z
  | HealthCheck.Print _ => True
  end.

Fixpoint prints (t : list HealthCheck.event) : nat :=
  match t with
  | [] => O
  | HealthCheck.Print _ :: t' => Datatypes.S (prints t')
  | _ :: t' => prints t'
  end.

(** A host whose endpoint answers 503 once and whose next request is
    interrupted from the keyboard. *)
Definition interrupted_host : HealthCheck.host := {|
  HealthCheck.environ := {[ "PORT" := "9000" ]};
  HealthCheck.network := fun k =>
    if (k <? 1)%nat
    then HealthCheck.Response 503
    else HealthCheck.Fails (Exn KeyboardInterrupt "");
  HealthCheck.trace := []
|}.

(** A host whose endpoint always answers 503. *)
Definition unavailable_host : HealthCheck.host := {|
  HealthCheck.environ := ∅;
  HealthCheck.network := fun _ => HealthCheck.Response 503;
  HealthCheck.trace := []
|}.

(** ** Further properties: the artifact store *)

(** The lines printed for the candidates passed over, in order: nothing
    for one that is absent, a testing line and a failure line for one that
    is present but does not load. *)
Inductive skipped_log (f : filesystem) : list string -> list string -> Prop :=
  | skipped_nil : skipped_log f [] []
  | skipped_absent q qs ls :
      ~ present f q -> skipped_log f qs ls -> skipped_log f (q :: qs) ls
  | skipped_failed q qs ls e :
      present f q -> (forall u, ~ loads f q u) -> skipped_log f qs ls ->
      skipped_log f (q :: qs) (testing_line q :: failed_line q e :: ls).

(** [open(path, 'wb')] succeeds: the parent is a directory, the path is not
    one, and access is not denied. *)
Definition can_open (f : filesystem) (path : string) : bool :=
  is_directory f (dirname path)
  && negb (match nodes f !! path with Some Directory => true | _ => false end)
  && negb (bool_decide (path ∈ denied f)).

(** [pickle.dump] into the file opened at [path] succeeds: the object is
    picklable and the device has a free block once the file is truncated. *)
Definition can_dump (f : filesystem) (path : string) (v : value) : bool :=
  picklable v && negb (disk_full (truncated f path)).

(** The file system after an attempt to save [v] at [path]: untouched when
    the file cannot be opened, otherwise the file holds the pickle, or is
    left truncated when the dump fails. *)
Definition written (f : filesystem) (path : string) (v : value) : filesystem :=
  if can_open f path
  then if can_dump f path v
       then with_nodes (truncated f path) (<[path := RegularFile (Pickle v)]> (nodes f))
       else truncated f path
  else f.

(** [os.makedirs('models', exist_ok=True)] raises: the name is taken by a
    regular file, or it is free and may not be created. *)
Definition makedirs_refused (f : filesystem) : Prop :=
  (exists c, nodes f !! "models" = Some (RegularFile c))
  \/ (nodes f !! "models" = None /\ "models" ∈ denied f).

(** The lookup found a model: it returned an object other than [None]. *)
Definition found (r : outcome (option string * option value)) : bool :=
  match r with
  | Returned (_, working_model) => negb (is_None working_model)
  | Raised _ => false
  end.

(** A file system with a [models] directory holding a good fallback. *)
Definition fallback_fs : filesystem := {|
  nodes := {[ "models" := Directory;
              "models/fallback_model.pkl" := RegularFile (Pickle (VInt 1)) ]};
  denied := ∅;
  disk_full := false
|}.

(** The same on a device that has since filled up. *)
Definition full_disk_fs : filesystem := {|
  nodes := nodes fallback_fs;
  denied := ∅;
  disk_full := true
|}.

(** A file system in which the third candidate is a pickle of [None]. *)
Definition none_pickle_fs : filesystem := {|
  nodes := {[ "models" := Directory;
              "models/lca_model.pkl" := RegularFile (Pickle VNone) ]};
  denied := ∅;
  disk_full := false
|}.

(** A file system with an empty [models] directory. *)
Definition models_dir_fs : filesystem := {|
  nodes := {[ "models" := Directory ]};
  denied := ∅;
  disk_full := false
|}.

(** A file system in which [models] is a regular file. *)
Definition models_file_fs : filesystem := {|
  nodes := {[ "models" := RegularFile (Corrupt "not a pickle") ]};
  denied := ∅;
  disk_full := false
|}.

Definition world_on (G : BitGenerator) (s : rng_state G) (f : filesystem) : world G :=
  {| np_random := s; fs := f; stdout := [] |}.

(** ** Further properties: the builders *)

(** Every categorical entry of the training matrix is the code that the
    artifact's own encoder for that field gives to one of its labels. *)
Definition codes_decodable (a : gmap string value) : Prop :=
  exists X y_env : matrix,
    environmental_training a = Some (X, y_env)
    /\ forall row, row ∈ X ->
       forall (field : string) (col : nat),
         (field, col) ∈ [("Metal", 0%nat); ("Process_Type", 1%nat); ("End_of_Life", 2%nat)] ->
         exists (enc : LabelEncoder) (label : string) (code : nat),
           label_encoder a field = Some enc
           /\ row !! col = Some (inject_Z (Z.of_nat code))
           /\ LabelEncoder_transform enc label = Some code.

(** Both regressors of the artifact are fitted, on the same [n] x 13
    feature matrix and on [n] x 3 target matrices. *)
Definition fitted_shapes (n : nat) (a : gmap string value) : Prop :=
  exists X y_env y_circ : matrix,
    environmental_training a = Some (X, y_env)
    /\ circularity_training a "RandomForest" = Some (X, y_circ)
    /\ (length X = n /\ Forall (fun row => length row = 13%nat) X)
    /\ (length y_env = n /\ Forall (fun row => length row = 3%nat) y_env)
    /\ (length y_circ = n /\ Forall (fun row => length row = 3%nat) y_circ).

(** * Proofs *)

(** ** The model on concrete inputs *)

Example np_unique_processes :
  np_unique CreateFallbackModel.processes = ["Hybrid"; "Primary"; "Recycled"].
Proof. reflexivity. Qed.

Example np_unique_metals :
  np_unique CreateFallbackModel.metals
  = ["Aluminium"; "Copper"; "Gold"; "Lead"; "Nickel"; "Steel"; "Tin"; "Zinc"].
Proof. reflexivity. Qed.

Example np_unique_eol_options :
  np_unique CreateFallbackModel.eol_options = ["Landfilled"; "Recycled"; "Reused"].
Proof. reflexivity. Qed.

Example dirname_fallback_path : dirname "models/fallback_model.pkl" = "models".
Proof. reflexivity. Qed.

Example dirname_bare_name : dirname "fallback_model.pkl" = "".
Proof. reflexivity. Qed.

Example py_max_floor : py_max 1 (-3) = 1%Q /\ py_max 1 7 = 7%Q.
Proof. split; reflexivity. Qed.

Example clamp_unit :
  py_max 0 (py_min 1 1.4) = 1%Q /\ py_max 0 (py_min 1 (-0.2)) = 0%Q
  /\ py_max 0 (py_min 1 0.6) = 0.6%Q.
Proof. repeat split; reflexivity. Qed.

(** Two rows of training data under the counter generator: row 0 has
    Process_Type code 1 and row 1 has code 2. *)
Example training_data_two_rows :
  fst (CreateFallbackModel.training_data counter_gen 2 0%Z)
  = Returned
      ([[4; 1; 0; (13 # 16) * 2000; (14 # 16) * 20; (15 # 16) * 30; (0 # 16) * 5;
         1 # 16; 2 # 16; 3 # 16; 4 # 16; 5 # 16; 6 # 16];
        [5; 2; 1; (10 # 16) * 2000; (11 # 16) * 20; (12 # 16) * 30; (13 # 16) * 5;
         14 # 16; 15 # 16; 0 # 16; 1 # 16; 2 # 16; 3 # 16]]%Q,
       [[50 * 0.3 + 15 * 2; py_max 0.1 (5 * 0.3 + 2 * inject_Z (-2)); py_max 0.5 (20 * 0.3 + 8 * inject_Z (-1))];
        [50 * 1.0 + 15 * 0; 5 * 1.0 + 2 * 1; 20 * 1.0 + 8 * 2]]%Q,
       [[0.8 + 0.1 * inject_Z (-2); 70 + 15 * inject_Z (-1); 0.8 + 0.1 * 0];
        [0.3 + 0.1 * 1; 20 + 15 * 2; py_max 0 (0.3 + 0.1 * inject_Z (-2))]]%Q).
Proof. vm_compute. reflexivity. Qed.

(** The health check against an endpoint that refuses two connections and
    then answers 200. *)
Example check_health_flaky_trace :
  let r := HealthCheck.check_health flaky_host in
  fst r = Returned true
  /\ HealthCheck.trace (snd r)
     = [HealthCheck.Get "http://localhost:8501/_stcore/health" 5;
        HealthCheck.Print "Attempt 1/30: Health check failed - Connection refused";
        HealthCheck.Sleep 2;
        HealthCheck.Get "http://localhost:8501/_stcore/health" 5;
        HealthCheck.Print "Attempt 2/30: Health check failed - Connection refused";
        HealthCheck.Sleep 2;
        HealthCheck.Get "http://localhost:8501/_stcore/health" 5;
        HealthCheck.Print "✅ Health check passed on port 8501"].
Proof. split; reflexivity. Qed.

(** ** Rules for the monad *)

Lemma wp_ret {S A} (a : A) (post : A -> S -> Prop) (s : S) :
  post a s -> wp (ret a) post s.
Proof. intros H. exact H. Qed.

Lemma wp_bind {S A B} (m : ST S A) (k : A -> ST S B) (post : B -> S -> Prop) (s : S) :
  wp m (fun a s' => wp (k a) post s') s -> wp (bind m k) post s.
Proof.
  unfold wp, bind. destruct (m s) as [[a|e] s']; intros H; [exact H | contradiction].
Qed.

Lemma wp_mono {S A} (m : ST S A) (P Q : A -> S -> Prop) (s : S) :
  (forall a s', P a s' -> Q a s') -> wp m P s -> wp m Q s.
Proof.
  unfold wp. intros HPQ. destruct (m s) as [[a|e] s']; [apply HPQ | tauto].
Qed.

Lemma wp_returned {S A} (m : ST S A) (post : A -> S -> Prop) (s : S) :
  wp m post s <-> exists a s', m s = (Returned a, s') /\ post a s'.
Proof.
  unfold wp. destruct (m s) as [[a|e] s']; split.
  - intros H. exists a, s'. auto.
  - intros (a' & s'' & Heq & H). congruence.
  - contradiction.
  - intros (a' & s'' & Heq & H). discriminate.
Qed.

Lemma wp_conj {S A} (m : ST S A) (P Q : A -> S -> Prop) (s : S) :
  wp m P s -> wp m Q s -> wp m (fun a s' => P a s' /\ Q a s') s.
Proof. unfold wp. destruct (m s) as [[a|e] s']; tauto. Qed.

(** A loop whose body establishes [P] for each element yields a list of
    the same length all of whose elements satisfy [P]. *)
Lemma wp_mapM {S A B} (f : A -> ST S B) (P : B -> Prop) (l : list A) (s : S) :
  (forall x s', x ∈ l -> wp (f x) (fun y _ => P y) s') ->
  wp (mapM f l) (fun ys _ => length ys = length l /\ Forall P ys) s.
Proof.
  revert s. induction l as [|x l IH]; intros s Hf; simpl.
  - apply wp_ret. auto.
  - apply wp_bind. eapply wp_mono; [| apply Hf; left].
    intros y s1 Hy. apply wp_bind. eapply wp_mono; [| apply IH].
    + intros ys s2 [Hlen Hall]. apply wp_ret. simpl. auto.
    + intros z s' Hz. apply Hf. by right.
Qed.

Lemma wp_replicateM {S A} (m : ST S A) (P : A -> Prop) (n : nat) (s : S) :
  (forall s', wp m (fun y _ => P y) s') ->
  wp (replicateM n m) (fun ys _ => length ys = n /\ Forall P ys) s.
Proof.
  intros Hm. revert s. induction n as [|n IH]; intros s; simpl.
  - apply wp_ret. auto.
  - apply wp_bind. eapply wp_mono; [| apply Hm].
    intros y s1 Hy. apply wp_bind. eapply wp_mono; [| apply IH].
    intros ys s2 [Hlen Hall]. apply wp_ret. simpl. auto.
Qed.

Lemma wp_lift_rng G {A} (m : ST (rng_state G) A) (P : A -> Prop) (w : world G) :
  wp m (fun a _ => P a) (np_random w) -> wp (lift_rng G m) (fun a _ => P a) w.
Proof.
  unfold wp, lift_rng. destruct (m (np_random w)) as [[a|e] s']; auto.
Qed.

Lemma wp_print G (line : string) (post : unit -> world G -> Prop) (w : world G) :
  post tt {| np_random := np_random w; fs := fs w; stdout := stdout w ++ [line] |} ->
  wp (print G line) post w.
Proof. intros H. exact H. Qed.

(** ** Clamping *)

Lemma py_max_lb a b : (a <= py_max a b)%Q.
Proof.
  unfold py_max, Qltb. destruct (Qle_bool b a) eqn:E; simpl.
  - apply Qle_refl.
  - apply Qlt_le_weak, Qnot_le_lt. intros H. apply Qle_bool_iff in H. congruence.
Qed.

Lemma py_max_ub a b hi : (a <= hi)%Q -> (b <= hi)%Q -> (py_max a b <= hi)%Q.
Proof. unfold py_max. destruct (Qltb a b); auto. Qed.

Lemma py_min_ub a b : (py_min a b <= a)%Q.
Proof.
  unfold py_min, Qltb. destruct (Qle_bool a b) eqn:E; simpl.
  - apply Qle_refl.
  - apply Qlt_le_weak, Qnot_le_lt. intros H. apply Qle_bool_iff in H. congruence.
Qed.

(** ** Array updates *)

Lemma row_matches_replicate (U : Q -> Prop) (row : list Q) (m : nat) :
  length row = m -> Forall U row -> row_matches (replicate m U) row.
Proof.
  intros <- H. induction H; simpl; constructor; auto.
Qed.

Lemma row_matches_length spec row : row_matches spec row -> length row = length spec.
Proof. intros H. symmetry. exact (Forall2_length _ _ _ H). Qed.

Lemma row_matches_insert spec row (j : nat) (P : Q -> Prop) (x : Q) :
  row_matches spec row -> P x -> row_matches (<[j := P]> spec) (<[j := x]> row).
Proof.
  intros H Hx. revert j. induction H as [|P0 x0 spec row H0 H IH]; intros j.
  - constructor.
  - destruct j; simpl; constructor; auto. apply IH.
Qed.

Lemma row_matches_alter spec row (j : nat) (f : Q -> Q) (P' : Q -> Prop) :
  row_matches spec row ->
  (forall (P : Q -> Prop) x, spec !! j = Some P -> P x -> P' (f x)) ->
  row_matches (<[j := P']> spec) (alter f j row).
Proof.
  intros H. revert j. induction H as [|P0 x0 spec row H0 H IH]; intros j Hf.
  - constructor.
  - destruct j; simpl; constructor; auto.
    + apply (Hf P0 x0); [reflexivity | exact H0].
    + apply IH. intros P x HP. apply Hf. exact HP.
Qed.

Lemma setitem_column_matches spec (P : Q -> Prop) (j : nat) (v : list Q) (X : matrix) :
  length v = length X ->
  Forall (row_matches spec) X -> Forall P v ->
  length (setitem_column j v X) = length X
  /\ Forall (row_matches (<[j := P]> spec)) (setitem_column j v X).
Proof.
  unfold setitem_column. intros Hlen HX. revert v Hlen.
  induction HX as [|row X Hrow HX IH]; intros [|x v] Hlen Hv; simpl in *;
    try discriminate; [split; [reflexivity | constructor] |].
  inversion Hv as [|? ? Hx Hv']; subst.
  destruct (IH v) as [IH1 IH2]; [congruence | assumption |].
  split; [congruence |]. constructor; [| exact IH2].
  apply row_matches_insert; assumption.
Qed.

Lemma imul_column_matches spec (P' : Q -> Prop) (j : nat) (c : Q) (X : matrix) :
  Forall (row_matches spec) X ->
  (forall (P : Q -> Prop) x, spec !! j = Some P -> P x -> P' (x * c)%Q) ->
  length (imul_column j c X) = length X
  /\ Forall (row_matches (<[j := P']> spec)) (imul_column j c X).
Proof.
  unfold imul_column. intros HX Hf. split; [apply length_map |].
  induction HX as [|row X Hrow HX IH]; simpl; constructor; [| exact IH].
  apply row_matches_alter with (f := fun x => (x * c)%Q); assumption.
Qed.

(** ** The samplers *)

Section Samplers.
Context (G : BitGenerator).

Lemma wp_draw {A} (f : rng_state G -> A * rng_state G) (P : A -> Prop) s :
  P (fst (f s)) -> wp (draw G f) (fun a _ => P a) s.
Proof. unfold wp, draw. destruct (f s); auto. Qed.

Lemma wp_np_random_seed_42 (post : unit -> rng_state G -> Prop) s :
  post tt (rng_seed G 42) -> wp (np_random_seed G 42) post s.
Proof. intros H. exact H. Qed.

Lemma wp_np_random_rand (U : Q -> Prop) (n m : nat) s :
  (forall s', U (fst (rng_double G s'))) ->
  wp (np_random_rand G n m)
     (fun X _ => length X = n /\ Forall (row_matches (replicate m U)) X) s.
Proof.
  intros HU. unfold np_random_rand.
  eapply wp_mono; [| apply (wp_replicateM _ (row_matches (replicate m U)))].
  - intros X s' H. exact H.
  - intros s'. eapply wp_mono;
      [| apply (wp_replicateM _ U); intros s''; apply wp_draw, HU].
    intros row _ [Hlen Hall]. apply row_matches_replicate; assumption.
Qed.

Lemma wp_np_random_randint (K : Z -> Prop) (low high : Z) (n : nat) s :
  (low < high)%Z ->
  (forall s', K (fst (rng_integer G low high s'))) ->
  wp (np_random_randint G low high n)
     (fun v _ => length v = n /\ Forall K v) s.
Proof.
  intros Hlt HK. unfold np_random_randint.
  apply Z.ltb_lt in Hlt. rewrite Hlt.
  apply wp_replicateM. intros s'. apply wp_draw, HK.
Qed.

Lemma wp_np_random_normal (loc scale : Q) (post : Q -> rng_state G -> Prop) s :
  Qle_bool 0 scale = true ->
  (forall x s', post x s') ->
  wp (np_random_normal G loc scale) post s.
Proof.
  intros Hs Hpost. unfold np_random_normal. rewrite Hs.
  unfold wp, draw. destruct (rng_gauss G loc scale s). apply Hpost.
Qed.

End Samplers.

Lemma wp_getitem2 {S} (X : matrix) (i j : nat) row x (post : Q -> S -> Prop) (s : S) :
  X !! i = Some row -> row !! j = Some x -> post x s ->
  wp (getitem2 X i j) post s.
Proof. intros Hi Hj H. unfold getitem2. rewrite Hi, Hj. exact H. Qed.

(** ** The synthetic training data of [create_simple_fallback_model] *)

Lemma matrix_entry spec (X : matrix) (i j : nat) :
  Forall (row_matches spec) X -> (i < length X)%nat -> (j < length spec)%nat ->
  exists row x, X !! i = Some row /\ row !! j = Some x.
Proof.
  intros HX Hi Hj.
  destruct (lookup_lt_is_Some_2 X i Hi) as [row Hrow].
  pose proof (Forall_lookup_1 _ _ _ _ HX Hrow) as Hm.
  apply row_matches_length in Hm.
  destruct (lookup_lt_is_Some_2 row j) as [x Hx]; [lia |].
  exists row, x. auto.
Qed.

Section TrainingData.
Context (G : BitGenerator).

Lemma y_env_row_floored (X_train : matrix) (i : nat) s :
  (exists row x, X_train !! i = Some row /\ row !! 1%nat = Some x) ->
  wp (CreateFallbackModel.y_env_row G X_train i)
     (fun y _ => environmental_row_floored y) s.
Proof.
  intros (row & x & Hrow & Hx). unfold CreateFallbackModel.y_env_row.
  apply wp_bind. eapply wp_getitem2; [exact Hrow | exact Hx |].
  apply wp_bind, wp_np_random_normal; [reflexivity |]. intros energy s1.
  apply wp_bind, wp_np_random_normal; [reflexivity |]. intros emissions s2.
  apply wp_bind, wp_np_random_normal; [reflexivity |]. intros water s3.
  apply wp_ret. eexists _, _, _. split; [reflexivity |].
  repeat split; apply py_max_lb.
Qed.

Lemma y_circ_row_clamped (X_train : matrix) (i : nat) s :
  (exists row x, X_train !! i = Some row /\ row !! 1%nat = Some x) ->
  wp (CreateFallbackModel.y_circ_row G X_train i)
     (fun y _ => circularity_row_ok y) s.
Proof.
  intros (row & x & Hrow & Hx). unfold CreateFallbackModel.y_circ_row.
  apply wp_bind. eapply wp_getitem2; [exact Hrow | exact Hx |].
  apply wp_bind, wp_np_random_normal; [reflexivity |]. intros circularity s1.
  apply wp_bind. eapply wp_getitem2; [exact Hrow | exact Hx |].
  apply wp_bind, wp_np_random_normal; [reflexivity |]. intros recycled_content s2.
  apply wp_bind, wp_np_random_normal; [reflexivity |]. intros reuse_potential s3.
  apply wp_ret. eexists _, _, _. split; [reflexivity |].
  repeat split; try apply py_max_lb; apply py_max_ub; try apply py_min_ub; lra.
Qed.

(** Whatever is known of the raw draws ([U]) and of the integer draws
    ([K8] for eight categories, [K3] for three) carries over to the columns
    of [X_train]; the targets are clamped whatever the draws are. *)
Lemma training_data_spec (U : Q -> Prop) (K8 K3 : Z -> Prop) (n : nat) s :
  (forall s', U (fst (rng_double G s'))) ->
  (forall s', K8 (fst (rng_integer G 0 (Z.of_nat (length CreateFallbackModel.metals)) s'))) ->
  (forall s', K3 (fst (rng_integer G 0 (Z.of_nat (length CreateFallbackModel.processes)) s'))) ->
  wp (CreateFallbackModel.training_data G n)
     (fun r _ =>
        let '(X, y_env, y_circ) := r in
        (length X = n
         /\ Forall (row_matches
              [code_with K8; code_with K3; code_with K3;
               scaled_with U 2000; scaled_with U 20; scaled_with U 30; scaled_with U 5;
               U; U; U; U; U; U]) X)
        /\ (length y_env = n /\ Forall environmental_row_floored y_env)
        /\ (length y_circ = n /\ Forall circularity_row_ok y_circ)) s.
Proof.
  intros HU HK8 HK3. unfold CreateFallbackModel.training_data.
  apply wp_bind, wp_np_random_seed_42.
  apply wp_bind. eapply wp_mono; [| apply (wp_np_random_rand G U); exact HU].
  intros X0 s1 [L0 M0].
  apply wp_bind. eapply wp_mono;
    [| apply (wp_np_random_randint G K8); [reflexivity | exact HK8]].
  intros metal s2 [Lm Hm].
  assert (Cm : Forall (code_with K8) (map inject_Z metal)).
  { apply Forall_map. eapply Forall_impl; [exact Hm |]. intros z Hz. exists z. auto. }
  assert (Em : length (map inject_Z metal) = length X0)
    by (rewrite length_map; congruence).
  pose proof (setitem_column_matches _ _ 0 _ _ Em M0 Cm) as [L1 M1].
  apply wp_bind. eapply wp_mono;
    [| apply (wp_np_random_randint G K3); [reflexivity | exact HK3]].
  intros process s3 [Lp Hp].
  assert (Cp : Forall (code_with K3) (map inject_Z process)).
  { apply Forall_map. eapply Forall_impl; [exact Hp |]. intros z Hz. exists z. auto. }
  assert (Ep : length (map inject_Z process) = length (setitem_column 0 (map inject_Z metal) X0))
    by (rewrite length_map; congruence).
  pose proof (setitem_column_matches _ _ 1 _ _ Ep M1 Cp) as [L2 M2].
  apply wp_bind. eapply wp_mono;
    [| apply (wp_np_random_randint G K3); [reflexivity | exact HK3]].
  intros eol s4 [Le He].
  assert (Ce : Forall (code_with K3) (map inject_Z eol)).
  { apply Forall_map. eapply Forall_impl; [exact He |]. intros z Hz. exists z. auto. }
  assert (Ee : length (map inject_Z eol)
               = length (setitem_column 1 (map inject_Z process)
                           (setitem_column 0 (map inject_Z metal) X0)))
    by (rewrite length_map; congruence).
  pose proof (setitem_column_matches _ _ 2 _ _ Ee M2 Ce) as [L3 M3].
  destruct (imul_column_matches _ (scaled_with U 2000) 3 2000 _ M3) as [L4 M4].
  { intros P x [= <-] Hx. exists x. auto. }
  destruct (imul_column_matches _ (scaled_with U 20) 4 20 _ M4) as [L5 M5].
  { intros P x [= <-] Hx. exists x. auto. }
  destruct (imul_column_matches _ (scaled_with U 30) 5 30 _ M5) as [L6 M6].
  { intros P x [= <-] Hx. exists x. auto. }
  destruct (imul_column_matches _ (scaled_with U 5) 6 5 _ M6) as [L7 M7].
  { intros P x [= <-] Hx. exists x. auto. }
  set (X_train := imul_column 6 5 _) in *.
  assert (LX : length X_train = n) by congruence.
  assert (Hentry : forall i, i ∈ seq 0 n ->
            exists row x, X_train !! i = Some row /\ row !! 1%nat = Some x).
  { intros i Hi. apply elem_of_seq in Hi.
    eapply matrix_entry; [exact M7 | lia | simpl; lia]. }
  apply wp_bind. eapply wp_mono;
    [| apply (wp_mapM _ environmental_row_floored);
       intros i s' Hi; apply y_env_row_floored, Hentry, Hi].
  intros y_env s5 [Lye Hye]. rewrite length_seq in Lye.
  apply wp_bind. eapply wp_mono;
    [| apply (wp_mapM _ circularity_row_ok);
       intros i s' Hi; apply y_circ_row_clamped, Hentry, Hi].
  intros y_circ s6 [Lyc Hyc]. rewrite length_seq in Lyc.
  apply wp_ret. simpl. repeat split; assumption.
Qed.

End TrainingData.

(** ** The sample data of [create_fallback_model] *)

Lemma broadcast_mul_scaled (U : Q -> Prop) (a b c : Q) (R : matrix) :
  Forall (row_matches (replicate 3 U)) R ->
  length (broadcast_mul R [a; b; c]) = length R
  /\ Forall (scaled_row U a b c) (broadcast_mul R [a; b; c]).
Proof.
  unfold broadcast_mul. intros HR. split; [apply length_map |].
  induction HR as [|row R Hrow HR IH]; simpl; constructor; [| exact IH].
  inversion Hrow as [|? u1 ? r1 H1 Hr1]; subst.
  inversion Hr1 as [|? u2 ? r2 H2 Hr2]; subst.
  inversion Hr2 as [|? u3 ? r3 H3 Hr3]; subst.
  inversion Hr3; subst. exists u1, u2, u3. auto.
Qed.

Lemma sample_data_spec G (U : Q -> Prop) (n : nat) s :
  (forall s', U (fst (rng_double G s'))) ->
  wp (TestModels.sample_data G n)
     (fun r _ =>
        let '(X, y_env, y_circ) := r in
        (length X = n /\ Forall (row_matches (replicate 13 U)) X)
        /\ (length y_env = n /\ Forall (scaled_row U 100 10 50) y_env)
        /\ (length y_circ = n /\ Forall (scaled_row U 1 100 1) y_circ)) s.
Proof.
  intros HU. unfold TestModels.sample_data.
  apply wp_bind, wp_np_random_seed_42.
  apply wp_bind. eapply wp_mono; [| apply (wp_np_random_rand G U); exact HU].
  intros X s1 [LX MX].
  apply wp_bind. eapply wp_mono; [| apply (wp_np_random_rand G U); exact HU].
  intros r_env s2 [Le Me].
  apply wp_bind. eapply wp_mono; [| apply (wp_np_random_rand G U); exact HU].
  intros r_circ s3 [Lc Mc].
  destruct (broadcast_mul_scaled U 100 10 50 r_env Me) as [Le' Me'].
  destruct (broadcast_mul_scaled U 1 100 1 r_circ Mc) as [Lc' Mc'].
  apply wp_ret. simpl. repeat split; try assumption; congruence.
Qed.

(** ** The builders *)

Ltac dict_eval :=
  repeat rewrite list_to_map_cons; rewrite ?list_to_map_nil;
  repeat first [rewrite lookup_insert_eq | rewrite lookup_insert_ne by discriminate].

Ltac dict_dom :=
  repeat rewrite list_to_map_cons; rewrite ?list_to_map_nil;
  rewrite ?dom_insert_L, ?dom_empty_L; set_solver.

Ltac built_from_dict :=
  unfold built_from, artifact_schema_ok, best_model_present,
    environmental_training, circularity_training, label_encoder;
  repeat match goal with
         | |- _ /\ _ => split
         | |- exists _, _ => eexists
         | |- dom _ = _ => dict_dom
         | |- _ ∈ dom _ => dict_dom
         | |- _ => progress dict_eval
         | |- _ = _ => reflexivity
         end.

Lemma create_simple_fallback_model_built G
    (P : matrix -> matrix -> matrix -> Prop) (w : world G) :
  wp (CreateFallbackModel.training_data G 1000)
     (fun r _ => let '(X, y_env, y_circ) := r in P X y_env y_circ) (np_random w) ->
  wp (CreateFallbackModel.create_simple_fallback_model G)
     (fun a _ =>
        built_from P CreateFallbackModel.metals CreateFallbackModel.processes
          CreateFallbackModel.eol_options a) w.
Proof.
  intros H. unfold CreateFallbackModel.create_simple_fallback_model.
  apply wp_bind, wp_print. apply wp_bind.
  eapply wp_mono; [| apply wp_lift_rng; exact H].
  intros [[X y_env] y_circ] w' HP. apply wp_ret.
  built_from_dict. exact HP.
Qed.

Lemma create_fallback_model_built G
    (P : matrix -> matrix -> matrix -> Prop) (w : world G) :
  wp (TestModels.sample_data G 100)
     (fun r _ => let '(X, y_env, y_circ) := r in P X y_env y_circ) (np_random w) ->
  wp (TestModels.create_fallback_model G)
     (fun a _ =>
        built_from P TestModels.metals TestModels.processes TestModels.eol_options a) w.
Proof.
  intros H. unfold TestModels.create_fallback_model.
  apply wp_bind, wp_print. apply wp_bind.
  eapply wp_mono; [| apply wp_lift_rng; exact H].
  intros [[X y_env] y_circ] w' HP. apply wp_ret.
  built_from_dict. exact HP.
Qed.

Lemma counter_gen_ok : BitGenerator_ok counter_gen.
Proof.
  split.
  - intros c. simpl. pose proof (Z.mod_pos_bound c 16 eq_refl) as [H0 H1].
    unfold Qle, Qlt. simpl. lia.
  - intros lo hi c Hlt. simpl.
    pose proof (Z.mod_pos_bound c (hi - lo)). lia.
Qed.

Lemma training_data_returns G (n : nat) s :
  wp (CreateFallbackModel.training_data G n)
     (fun r _ => let '(X, y_env, y_circ) := r in True) s.
Proof.
  eapply wp_mono;
    [| apply (training_data_spec G (fun _ => True) (fun _ => True) (fun _ => True)); auto].
  intros [[X y_env] y_circ] s' H. exact I.
Qed.

Lemma sample_data_returns G (n : nat) s :
  wp (TestModels.sample_data G n)
     (fun r _ => let '(X, y_env, y_circ) := r in True) s.
Proof.
  eapply wp_mono; [| apply (sample_data_spec G (fun _ => True)); auto].
  intros [[X y_env] y_circ] s' H. exact I.
Qed.

Lemma row_matches_weaken spec spec' row :
  Forall2 (fun P P' : Q -> Prop => forall x, P x -> P' x) spec spec' ->
  row_matches spec row -> row_matches spec' row.
Proof.
  intros Hs. revert row. induction Hs as [|P P' spec spec' HP Hs IH]; intros row Hrow.
  - inversion Hrow. constructor.
  - inversion Hrow as [|? x ? row' Hx Hrow']; subst. constructor; auto. apply IH, Hrow'.
Qed.

Lemma scaled_unit_within (c : Q) x :
  (0 <= c)%Q -> scaled_with unit_interval c x -> within 0 c x.
Proof.
  intros Hc (u & [H0 H1] & ->). split.
  - apply Qmult_le_0_compat; assumption.
  - rewrite <- (Qmult_1_l c) at 2. apply Qmult_le_compat_r; [apply Qlt_le_weak, H1 | exact Hc].
Qed.

Lemma floored_positive row : environmental_row_floored row -> environmental_row_positive row.
Proof.
  intros (e & m & wt & -> & He & Hm & Hw). exists e, m, wt.
  split; [reflexivity |]. repeat split; lra.
Qed.

Lemma scaled_environmental_row row :
  scaled_row unit_interval 100 10 50 row -> environmental_row_scaled row.
Proof.
  intros (u1 & u2 & u3 & [A1 B1] & [A2 B2] & [A3 B3] & ->).
  eexists _, _, _. split; [reflexivity |]. repeat split; lra.
Qed.

Lemma scaled_circularity_row row :
  scaled_row unit_interval 1 100 1 row -> circularity_row_ok row.
Proof.
  intros (u1 & u2 & u3 & [A1 B1] & [A2 B2] & [A3 B3] & ->).
  eexists _, _, _. split; [reflexivity |]. unfold within. repeat split; lra.
Qed.

(** ** The claims *)

(** C1.  Both builders return an artifact with exactly the six top-level
    keys, whose [label_encoders] has exactly the entries Metal, Process_Type
    and End_of_Life and whose [metadata] holds a version tag, the feature
    count 13 and a provenance string naming a fallback. *)
Theorem builders_artifact_schema (G : BitGenerator) (w : world G) :
  wp (CreateFallbackModel.create_simple_fallback_model G)
     (fun a _ => artifact_schema_ok a) w
  /\ wp (TestModels.create_fallback_model G) (fun a _ => artifact_schema_ok a) w.
Proof.
  split.
  - eapply wp_mono;
      [| apply create_simple_fallback_model_built, training_data_returns].
    intros a w' H. apply H.
  - eapply wp_mono; [| apply create_fallback_model_built, sample_data_returns].
    intros a w' H. apply H.
Qed.

(** C8.  In the artifact returned by either builder the value stored under
    [circularity_best_model] is a key of [circularity_models]. *)
Theorem builders_best_model_present (G : BitGenerator) (w : world G) :
  wp (CreateFallbackModel.create_simple_fallback_model G)
     (fun a _ => best_model_present a) w
  /\ wp (TestModels.create_fallback_model G) (fun a _ => best_model_present a) w.
Proof.
  split.
  - eapply wp_mono;
      [| apply create_simple_fallback_model_built, training_data_returns].
    intros a w' H. apply H.
  - eapply wp_mono; [| apply create_fallback_model_built, sample_data_returns].
    intros a w' H. apply H.
Qed.

(** The first draws of NumPy's generator after [np.random.seed(42)]:
    0.3745401188473625, 0.9507143064099162 and 0.7319939418114051, each
    over 2^53. *)
Example mt19937_seed_42_draws integers gauss :
  fst (replicateM 3 (draw (MT19937.generator integers gauss)
                       (rng_double (MT19937.generator integers gauss)))
         (rng_seed (MT19937.generator integers gauss) 42))
  = Returned [3373557479352566 # 9007199254740992;
              8563273192166996 # 9007199254740992;
              6593215287158609 # 9007199254740992]%Q.
Proof. vm_compute. reflexivity. Qed.

Lemma environmental_row_at_leastb_sound m row :
  environmental_row_at_leastb m row = true -> environmental_row_at_least m row.
Proof.
  destruct row as [|e [|em [|wt [|]]]]; try discriminate. cbn [environmental_row_at_leastb].
  rewrite !andb_true_iff, !Qle_bool_iff. intros [[He Hem] Hwt].
  exists e, em, wt. auto.
Qed.

Lemma circularity_row_okb_sound row :
  circularity_row_okb row = true -> circularity_row_ok row.
Proof.
  destruct row as [|c [|r [|u [|]]]]; try discriminate. cbn [circularity_row_okb].
  rewrite !andb_true_iff, !Qle_bool_iff. intros [[[[[? ?] ?] ?] ?] ?].
  exists c, r, u. unfold within. auto.
Qed.

Lemma at_least_positive m row :
  (0 < m)%Q -> environmental_row_at_least m row -> environmental_row_positive row.
Proof.
  intros Hm (e & em & wt & -> & He & Hem & Hwt).
  exists e, em, wt. repeat split; lra.
Qed.

Lemma sampled_targetsb_sound (n : nat) (env_ok circ_ok : list Q -> bool)
    (env_spec circ_spec : list Q -> Prop) {S}
    (m : ST S (matrix * matrix * matrix)) (s : S) :
  (forall row, env_ok row = true -> env_spec row) ->
  (forall row, circ_ok row = true -> circ_spec row) ->
  sampled_targetsb n env_ok circ_ok (fst (m s)) = true ->
  wp m (fun r _ =>
          let '(X, y_env, y_circ) := r in
          (length y_env = n /\ Forall env_spec y_env)
          /\ (length y_circ = n /\ Forall circ_spec y_circ)) s.
Proof.
  intros Henv Hcirc H. unfold wp.
  destruct (m s) as [[[[X y_env] y_circ] | e] s']; [| discriminate].
  cbn [fst sampled_targetsb] in H.
  rewrite !andb_true_iff, !Nat.eqb_eq, !forallb_forall in H.
  destruct H as [[[L1 H1] L2] H2].
  repeat split; try assumption; apply Forall_forall; intros row Hrow.
  - apply Henv, H1. apply list_elem_of_In, Hrow.
  - apply Hcirc, H2. apply list_elem_of_In, Hrow.
Qed.

(** The targets that [create_fallback_model] draws from NumPy's generator
    after [np.random.seed(42)], evaluated: no environmental target is below
    1/4 (the smallest is 0.2564...), and the circularity targets are in
    range. *)
Lemma sample_data_targets_evaluated integers gauss
    (s : rng_state (MT19937.generator integers gauss)) :
  sampled_targetsb 100 (environmental_row_at_leastb (1 # 4)) circularity_row_okb
    (fst (TestModels.sample_data (MT19937.generator integers gauss) 100 s))
  = true.
Proof. vm_compute. reflexivity. Qed.

(** For a generator of which only the documented ranges are known, the
    targets of [create_fallback_model] are draws of [0, 1) scaled by 100,
    10 and 50, and by 1, 100 and 1. *)
Lemma create_fallback_model_targets_scaled (G : BitGenerator) (HG : BitGenerator_ok G)
    (w : world G) :
  wp (TestModels.create_fallback_model G)
     (fun a _ => training_targets 100 environmental_row_scaled circularity_row_ok a) w.
Proof.
  eapply wp_mono;
    [| apply (create_fallback_model_built G
                (fun _ y_env y_circ =>
                   (length y_env = 100%nat
                    /\ Forall (scaled_row unit_interval 100 10 50) y_env)
                   /\ (length y_circ = 100%nat
                       /\ Forall (scaled_row unit_interval 1 100 1) y_circ)))].
  - intros a w' (_ & _ & (X & y_env & y_circ & E1 & E2 & [L1 H1] & [L2 H2]) & _).
    exists X, y_env, y_circ. repeat split; try assumption.
    + eapply Forall_impl; [exact H1 |]. apply scaled_environmental_row.
    + eapply Forall_impl; [exact H2 |]. apply scaled_circularity_row.
  - eapply wp_mono;
      [| apply (sample_data_spec G unit_interval); apply (double_range G HG)].
    intros [[X y_env] y_circ] s' (_ & H1 & H2). auto.
Qed.

(** C2.  Every training row of either builder has its circularity index
    and reuse potential in [0, 1], its recycled content in [0, 100], and
    energy, emissions and water strictly positive.
    [create_simple_fallback_model] floors the three at 1, 0.1 and 0.5,
    whatever the generator draws, on each of its 1000 rows.
    [create_fallback_model] of [test_models.py] applies no floor: its 100
    rows are the draws of NumPy's generator after [np.random.seed(42)],
    scaled by 100, 10 and 50.  None of these draws is 0, and no target is
    below 1/4. *)
Theorem builders_targets_in_range (G : BitGenerator) (w : world G)
    (integers : Z -> Z -> MT19937.state -> Z * MT19937.state)
    (gauss : Q -> Q -> MT19937.state -> Q * MT19937.state)
    (w42 : world (MT19937.generator integers gauss)) :
  wp (CreateFallbackModel.create_simple_fallback_model G)
     (fun a _ =>
        training_targets 1000
          (fun row => environmental_row_floored row /\ environmental_row_positive row)
          circularity_row_ok a) w
  /\ wp (TestModels.create_fallback_model (MT19937.generator integers gauss))
       (fun a _ =>
          training_targets 100
            (fun row => environmental_row_at_least (1 # 4) row
                        /\ environmental_row_positive row)
            circularity_row_ok a) w42.
Proof.
  split.
  - eapply wp_mono;
      [| apply (create_simple_fallback_model_built G
                  (fun _ y_env y_circ =>
                     (length y_env = 1000%nat /\ Forall environmental_row_floored y_env)
                     /\ (length y_circ = 1000%nat /\ Forall circularity_row_ok y_circ)))].
    + intros a w' (_ & _ & (X & y_env & y_circ & E1 & E2 & [L1 H1] & H2) & _).
      exists X, y_env, y_circ. repeat split; try assumption; try apply H2.
      eapply Forall_impl; [exact H1 |]. intros row Hrow.
      split; [exact Hrow | apply floored_positive, Hrow].
    + eapply wp_mono;
        [| apply (training_data_spec G (fun _ => True) (fun _ => True) (fun _ => True));
           auto].
      intros [[X y_env] y_circ] s' (_ & H1 & H2). auto.
  - eapply wp_mono;
      [| apply (create_fallback_model_built (MT19937.generator integers gauss)
                  (fun _ y_env y_circ =>
                     (length y_env = 100%nat
                      /\ Forall (environmental_row_at_least (1 # 4)) y_env)
                     /\ (length y_circ = 100%nat /\ Forall circularity_row_ok y_circ)))].
    + intros a w' (_ & _ & (X & y_env & y_circ & E1 & E2 & [L1 H1] & H2) & _).
      exists X, y_env, y_circ. repeat split; try assumption; try apply H2.
      eapply Forall_impl; [exact H1 |]. intros row Hrow.
      split; [exact Hrow | apply (at_least_positive (1 # 4)); [reflexivity | exact Hrow]].
    + apply (sampled_targetsb_sound 100 (environmental_row_at_leastb (1 # 4))
               circularity_row_okb).
      * apply environmental_row_at_leastb_sound.
      * apply circularity_row_okb_sound.
      * apply sample_data_targets_evaluated.
Qed.




(** ** Label encoders *)

Lemma ascii_compare_lt_trans a b c :
  Ascii.compare a b = Lt -> Ascii.compare b c = Lt -> Ascii.compare a c = Lt.
Proof.
  unfold Ascii.compare. rewrite !N.compare_lt_iff. apply N.lt_trans.
Qed.

Lemma ascii_compare_refl a : Ascii.compare a a = Eq.
Proof. unfold Ascii.compare. apply N.compare_refl. Qed.

Lemma string_compare_refl a : String.compare a a = Eq.
Proof.
  induction a as [|x a IH]; simpl; [reflexivity |].
  rewrite ascii_compare_refl. exact IH.
Qed.

Lemma string_lt_trans a b c : string_lt a b -> string_lt b c -> string_lt a c.
Proof.
  unfold string_lt. revert b c.
  induction a as [|x a IH]; intros [|y b] [|z c]; simpl; try congruence.
  destruct (Ascii.compare x y) eqn:Exy; try discriminate.
  - apply Ascii.compare_eq_iff in Exy. subst y.
    destruct (Ascii.compare x z) eqn:Exz; try congruence. apply IH.
  - intros _. destruct (Ascii.compare y z) eqn:Eyz; try discriminate.
    + apply Ascii.compare_eq_iff in Eyz. subst z. rewrite Exy. reflexivity.
    + rewrite (ascii_compare_lt_trans _ _ _ Exy Eyz). reflexivity.
Qed.

Lemma string_lt_irrefl a : ~ string_lt a a.
Proof. unfold string_lt. rewrite string_compare_refl. discriminate. Qed.

Lemma string_gt_lt a b : String.compare a b = Gt -> string_lt b a.
Proof.
  unfold string_lt. intros H. rewrite String.compare_antisym, H. reflexivity.
Qed.

Lemma elem_of_insert_unique x s l : x ∈ insert_unique s l <-> x = s \/ x ∈ l.
Proof.
  induction l as [|y l IH]; simpl.
  - rewrite !elem_of_cons. tauto.
  - destruct (String.compare s y) eqn:E.
    + apply String.compare_eq_iff in E. subst y. rewrite !elem_of_cons. tauto.
    + rewrite !elem_of_cons. tauto.
    + rewrite !elem_of_cons, IH. tauto.
Qed.

Lemma insert_unique_sorted s l :
  StronglySorted string_lt l -> StronglySorted string_lt (insert_unique s l).
Proof.
  induction 1 as [|y l Hl IH Hy]; simpl.
  - repeat constructor.
  - destruct (String.compare s y) eqn:E.
    + constructor; assumption.
    + constructor; [constructor; assumption |].
      constructor; [exact E |].
      eapply Forall_impl; [exact Hy |]. intros z Hz.
      exact (string_lt_trans _ _ _ E Hz).
    + constructor; [exact IH |].
      apply Forall_forall. intros z Hz. apply elem_of_insert_unique in Hz as [-> | Hz].
      * apply string_gt_lt, E.
      * rewrite Forall_forall in Hy. apply Hy, Hz.
Qed.

Lemma np_unique_sorted l : StronglySorted string_lt (np_unique l).
Proof.
  induction l as [|s l IH]; simpl; [constructor | apply insert_unique_sorted, IH].
Qed.

Lemma elem_of_np_unique x l : x ∈ np_unique l <-> x ∈ l.
Proof.
  induction l as [|s l IH]; simpl; [reflexivity |].
  rewrite elem_of_insert_unique, elem_of_cons, IH. reflexivity.
Qed.

Lemma index_of_lookup s l i : index_of s l = Some i -> l !! i = Some s.
Proof.
  revert i. induction l as [|x l IH]; intros i; simpl; [discriminate |].
  destruct (String.eqb_spec s x) as [-> | Hne].
  - intros [= <-]. reflexivity.
  - destruct (index_of s l) as [k|]; simpl; [| discriminate].
    intros [= <-]. simpl. apply IH. reflexivity.
Qed.

Lemma index_of_elem s l : s ∈ l -> is_Some (index_of s l).
Proof.
  induction l as [|x l IH]; simpl; [intros H; inversion H |].
  destruct (String.eqb_spec s x) as [-> | Hne]; [eauto |].
  intros H. apply elem_of_cons in H as [-> | H]; [congruence |].
  destruct (IH H) as [k ->]. simpl. eauto.
Qed.

Lemma sorted_lookup_lt l (i j : nat) a b :
  StronglySorted string_lt l ->
  l !! i = Some a -> l !! j = Some b -> (i < j)%nat -> string_lt a b.
Proof.
  intros Hl. revert i j. induction Hl as [|x l Hl IH Hx]; intros i j Hi Hj Hlt.
  - discriminate.
  - destruct i, j; simpl in *; try lia.
    + injection Hi as ->. rewrite Forall_forall in Hx.
      apply Hx. eapply list_elem_of_lookup_2, Hj.
    + apply (IH i j); [assumption | assumption | lia].
Qed.

Lemma fit_codes_ascending cats :
  codes_ascending (LabelEncoder_fit LabelEncoder_new cats) cats.
Proof.
  unfold codes_ascending, LabelEncoder_transform. simpl. split.
  - intros c Hc. apply index_of_elem, elem_of_np_unique, Hc.
  - intros a b i j Ha Hb.
    apply index_of_lookup in Ha, Hb.
    pose proof (np_unique_sorted cats) as Hs. split.
    + intros Hlt. exact (sorted_lookup_lt _ _ _ _ _ Hs Ha Hb Hlt).
    + intros Hab. destruct (Nat.lt_trichotomy i j) as [Hlt | [-> | Hgt]].
      * exact Hlt.
      * rewrite Ha in Hb. injection Hb as ->. destruct (string_lt_irrefl _ Hab).
      * pose proof (sorted_lookup_lt _ _ _ _ _ Hs Hb Ha Hgt) as Hba.
        destruct (string_lt_irrefl _ (string_lt_trans _ _ _ Hab Hba)).
Qed.

Lemma built_label_encoders_ok P metals processes eol_options a :
  processes = ["Primary"; "Recycled"; "Hybrid"] ->
  built_from P metals processes eol_options a ->
  label_encoders_ok metals processes eol_options a.
Proof.
  intros Hp (_ & _ & _ & Em & Ep & Ee). split.
  - intros field cats Hin.
    repeat (apply elem_of_cons in Hin as [[= -> ->] | Hin];
            [eexists; split; [eassumption |];
             split; [reflexivity | apply fit_codes_ascending] |]).
    inversion Hin.
  - eexists. split; [exact Ep |]. subst processes. repeat split.
Qed.

(** C10.  Every label encoder that either builder places in its artifact
    is fitted on its fixed category list and assigns codes in ascending
    lexicographic order of the labels; the Process_Type encoder maps Hybrid
    to 0, Primary to 1 and Recycled to 2. *)
Theorem builders_label_encoders (G : BitGenerator) (w : world G) :
  wp (CreateFallbackModel.create_simple_fallback_model G)
     (fun a _ =>
        label_encoders_ok CreateFallbackModel.metals CreateFallbackModel.processes
          CreateFallbackModel.eol_options a) w
  /\ wp (TestModels.create_fallback_model G)
       (fun a _ =>
          label_encoders_ok TestModels.metals TestModels.processes
            TestModels.eol_options a) w.
Proof.
  split.
  - eapply wp_mono;
      [| apply create_simple_fallback_model_built, training_data_returns].
    intros a w' H. eapply built_label_encoders_ok; [reflexivity | exact H].
  - eapply wp_mono; [| apply create_fallback_model_built, sample_data_returns].
    intros a w' H. eapply built_label_encoders_ok; [reflexivity | exact H].
Qed.

(** C3, evaluated on the code.  The training loops test the Process_Type
    column against the literal 1, which the encoder of the same artifact
    assigns to Primary.  Rows coded Recycled (2) therefore get factor 1.0
    and the low circularity baseline (0.3 / 20), and it is the rows coded
    Primary that get factor 0.3 and the high baseline (0.8 / 70). *)
Theorem recycled_rows_get_primary_baseline (G : BitGenerator) (w : world G) :
  wp (CreateFallbackModel.create_simple_fallback_model G)
     (fun a _ =>
        baseline_of a "Recycled" 1.0 0.3 20
        /\ baseline_of a "Primary" 0.3 0.8 70
        /\ baseline_of a "Hybrid" 1.0 0.3 20) w.
Proof.
  eapply wp_mono;
    [| apply create_simple_fallback_model_built, training_data_returns].
  intros a w' (_ & _ & _ & _ & Ep & _).
  repeat split; eexists _, _; (split; [exact Ep |]); repeat split.
Qed.

(** ** Determinism *)

Lemma training_data_reseeds G (n : nat) (s1 s2 : rng_state G) :
  CreateFallbackModel.training_data G n s1 = CreateFallbackModel.training_data G n s2.
Proof. reflexivity. Qed.

Lemma sample_data_reseeds G (n : nat) (s1 s2 : rng_state G) :
  TestModels.sample_data G n s1 = TestModels.sample_data G n s2.
Proof. reflexivity. Qed.

Lemma create_simple_fallback_model_outcome G (w1 w2 : world G) :
  fst (CreateFallbackModel.create_simple_fallback_model G w1)
  = fst (CreateFallbackModel.create_simple_fallback_model G w2).
Proof.
  unfold CreateFallbackModel.create_simple_fallback_model, bind, print, lift_rng.
  cbn [np_random].
  rewrite (training_data_reseeds G 1000 (np_random w1) (np_random w2)).
  destruct (CreateFallbackModel.training_data G 1000 (np_random w2))
    as [[[[X y_env] y_circ]|e] s']; reflexivity.
Qed.

Lemma create_fallback_model_outcome G (w1 w2 : world G) :
  fst (TestModels.create_fallback_model G w1) = fst (TestModels.create_fallback_model G w2).
Proof.
  unfold TestModels.create_fallback_model, bind, print, lift_rng.
  cbn [np_random].
  rewrite (sample_data_reseeds G 100 (np_random w1) (np_random w2)).
  destruct (TestModels.sample_data G 100 (np_random w2))
    as [[[[X y_env] y_circ]|e] s']; reflexivity.
Qed.

(** C4, as the code has it.  Neither builder takes a seed or a sample
    count: each seeds the process-wide generator with 42 before it draws and
    fixes its sample count.  So whatever the state of the process on entry,
    the state of the generator included, two runs return the same artifact,
    and with it the same feature and target matrices. *)
Theorem builders_deterministic (G : BitGenerator) (w1 w2 : world G) :
  exists a b : gmap string value,
    fst (CreateFallbackModel.create_simple_fallback_model G w1) = Returned a
    /\ fst (CreateFallbackModel.create_simple_fallback_model G w2) = Returned a
    /\ fst (TestModels.create_fallback_model G w1) = Returned b
    /\ fst (TestModels.create_fallback_model G w2) = Returned b.
Proof.
  pose proof (create_simple_fallback_model_built G _ w1
                (training_data_returns G 1000 (np_random w1))) as Ha.
  pose proof (create_fallback_model_built G _ w1
                (sample_data_returns G 100 (np_random w1))) as Hb.
  apply wp_returned in Ha as (a & wa & Ea & _).
  apply wp_returned in Hb as (b & wb & Eb & _).
  exists a, b.
  rewrite <- (create_simple_fallback_model_outcome G w1 w2).
  rewrite <- (create_fallback_model_outcome G w1 w2).
  rewrite Ea, Eb. auto.
Qed.

(** C4 as stated fails: the builders are defined without parameters, so a
    call that passes a seed raises [TypeError] before anything is drawn. *)
Lemma builders_accept_no_seed :
  fst (call0 (CreateFallbackModel.create_simple_fallback_model counter_gen)
         [VInt 7] (fresh_world counter_gen 0%Z))
  = Raised (Exn TypeError "takes 0 positional arguments but more were given")
  /\ fst (call0 (TestModels.create_fallback_model counter_gen)
            [VInt 7] (fresh_world counter_gen 0%Z))
     = Raised (Exn TypeError "takes 0 positional arguments but more were given").
Proof. split; reflexivity. Qed.

(** ** The health check *)

Section HealthCheckFacts.
Import HealthCheck.

Lemma requests_sent_log h ev :
  requests_sent (trace (log h ev))
  = (requests_sent (trace h) + match ev with Get _ _ => 1 | _ => 0 end)%nat.
Proof.
  simpl. induction (trace h) as [|e t IH]; simpl.
  - destruct ev; reflexivity.
  - destruct e; simpl; rewrite IH; reflexivity.
Qed.

Lemma sleeps_log h ev :
  sleeps (trace (log h ev))
  = (sleeps (trace h) + match ev with Sleep _ => 1 | _ => 0 end)%nat.
Proof.
  simpl. induction (trace h) as [|e t IH]; simpl.
  - destruct ev; reflexivity.
  - destruct e; simpl; rewrite IH; reflexivity.
Qed.

(** One iteration of the loop, by cases on what the network answers. *)
Lemma check_health_from_cons port attempt rest h :
  exists (passed : string) (failed : exn -> string),
    check_health_from port (attempt :: rest) h
    = let url := "http://localhost:" ++ port ++ "/_stcore/health" in
      match network h (requests_sent (trace h)) with
      | Response status_code =>
          if (status_code =? 200)%Z
          then (Returned true, log (log h (Get url 5)) (Print passed))
          else check_health_from port rest (log (log h (Get url 5)) (Sleep 2))
      | Fails e =>
          if is_RequestException e
          then check_health_from port rest
                 (log (log (log h (Get url 5)) (Print (failed e))) (Sleep 2))
          else (Raised e, log h (Get url 5))
      end.
Proof.
  eexists _, (fun e => _). cbn [check_health_from].
  unfold bind, try_except, requests_get, time_sleep, print, ret.
  destruct (network h (requests_sent (trace h))) as [status_code | e].
  - destruct (status_code =? 200)%Z; reflexivity.
  - destruct (is_RequestException e); reflexivity.
Qed.

Lemma check_health_from_passes port (l : list nat) : forall (h : host) (k : nat),
  (k < length l)%nat ->
  (forall j, (j < k)%nat ->
     retryable (network h (requests_sent (trace h) + j))
     /\ succeeds (network h (requests_sent (trace h) + j)) = false) ->
  succeeds (network h (requests_sent (trace h) + k)) = true ->
  exists h',
    check_health_from port l h = (Returned true, h')
    /\ requests_sent (trace h') = (requests_sent (trace h) + (k + 1))%nat
    /\ sleeps (trace h') = (sleeps (trace h) + k)%nat.
Proof.
  induction l as [|attempt rest IH]; intros h k Hk Hfail Hpass; simpl in Hk; [lia |].
  destruct (check_health_from_cons port attempt rest h) as (passed & failed & ->).
  cbv zeta. destruct k as [|k].
  - rewrite Nat.add_0_r in Hpass.
    destruct (network h (requests_sent (trace h))) as [status_code | e];
      simpl in Hpass; [| discriminate].
    rewrite Hpass. eexists. split; [reflexivity |].
    rewrite !requests_sent_log, !sleeps_log. lia.
  - destruct (Hfail 0%nat) as [Hr Hs]; [lia |]. rewrite Nat.add_0_r in Hr, Hs.
    destruct (network h (requests_sent (trace h))) as [status_code | e] eqn:E;
      simpl in Hr, Hs; [rewrite Hs | rewrite Hr].
    + match goal with
      | |- context [check_health_from port rest ?h1] =>
          destruct (IH h1 k) as (h' & Eq & Hn & Hsl);
            [lia | | | exists h'; split; [exact Eq |]]
      end.
      * intros j Hj. rewrite !requests_sent_log. simpl network.
        replace (requests_sent (trace h) + 1 + 0 + j)%nat
          with (requests_sent (trace h) + Datatypes.S j)%nat by lia.
        apply Hfail. lia.
      * rewrite !requests_sent_log. simpl network.
        replace (requests_sent (trace h) + 1 + 0 + k)%nat
          with (requests_sent (trace h) + Datatypes.S k)%nat by lia.
        exact Hpass.
      * rewrite Hn, Hsl, !requests_sent_log, !sleeps_log. lia.
    + match goal with
      | |- context [check_health_from port rest ?h1] =>
          destruct (IH h1 k) as (h' & Eq & Hn & Hsl);
            [lia | | | exists h'; split; [exact Eq |]]
      end.
      * intros j Hj. rewrite !requests_sent_log. simpl network.
        replace (requests_sent (trace h) + 1 + 0 + 0 + j)%nat
          with (requests_sent (trace h) + Datatypes.S j)%nat by lia.
        apply Hfail. lia.
      * rewrite !requests_sent_log. simpl network.
        replace (requests_sent (trace h) + 1 + 0 + 0 + k)%nat
          with (requests_sent (trace h) + Datatypes.S k)%nat by lia.
        exact Hpass.
      * rewrite Hn, Hsl, !requests_sent_log, !sleeps_log. lia.
Qed.

Lemma check_health_from_exhausts port (l : list nat) : forall (h : host),
  (forall j, (j < length l)%nat ->
     retryable (network h (requests_sent (trace h) + j))
     /\ succeeds (network h (requests_sent (trace h) + j)) = false) ->
  exists h',
    check_health_from port l h = (Returned false, h')
    /\ requests_sent (trace h') = (requests_sent (trace h) + length l)%nat
    /\ sleeps (trace h') = (sleeps (trace h) + length l)%nat.
Proof.
  induction l as [|attempt rest IH]; intros h Hfail.
  - eexists. split; [reflexivity |].
    rewrite requests_sent_log, sleeps_log. simpl. lia.
  - destruct (check_health_from_cons port attempt rest h) as (passed & failed & ->).
    cbv zeta. destruct (Hfail 0%nat) as [Hr Hs]; [simpl; lia |].
    rewrite Nat.add_0_r in Hr, Hs.
    destruct (network h (requests_sent (trace h))) as [status_code | e] eqn:E;
      simpl in Hr, Hs; [rewrite Hs | rewrite Hr].
    + match goal with
      | |- context [check_health_from port rest ?h1] =>
          destruct (IH h1) as (h' & Eq & Hn & Hsl); [| exists h'; split; [exact Eq |]]
      end.
      * intros j Hj. rewrite !requests_sent_log. simpl network.
        replace (requests_sent (trace h) + 1 + 0 + j)%nat
          with (requests_sent (trace h) + Datatypes.S j)%nat by lia.
        apply Hfail. simpl. lia.
      * rewrite Hn, Hsl, !requests_sent_log, !sleeps_log. simpl. lia.
    + match goal with
      | |- context [check_health_from port rest ?h1] =>
          destruct (IH h1) as (h' & Eq & Hn & Hsl); [| exists h'; split; [exact Eq |]]
      end.
      * intros j Hj. rewrite !requests_sent_log. simpl network.
        replace (requests_sent (trace h) + 1 + 0 + 0 + j)%nat
          with (requests_sent (trace h) + Datatypes.S j)%nat by lia.
        apply Hfail. simpl. lia.
      * rewrite Hn, Hsl, !requests_sent_log, !sleeps_log. simpl. lia.
Qed.

Lemma check_health_from_returns port (l : list nat) : forall (h : host),
  (forall j, (j < length l)%nat ->
     retryable (network h (requests_sent (trace h) + j))) ->
  exists b h', check_health_from port l h = (Returned b, h').
Proof.
  induction l as [|attempt rest IH]; intros h Hr.
  - eexists _, _. reflexivity.
  - destruct (check_health_from_cons port attempt rest h) as (passed & failed & ->).
    cbv zeta. pose proof (Hr 0%nat) as H0. rewrite Nat.add_0_r in H0.
    assert (Hnext : forall h1, network h1 = network h ->
              requests_sent (trace h1) = (requests_sent (trace h) + 1)%nat ->
              exists b h', check_health_from port rest h1 = (Returned b, h')).
    { intros h1 Hnet Hsent. apply IH. intros j Hj. rewrite Hnet, Hsent.
      replace (requests_sent (trace h) + 1 + j)%nat
        with (requests_sent (trace h) + Datatypes.S j)%nat by lia.
      apply Hr. simpl. lia. }
    destruct (network h (requests_sent (trace h))) as [status_code | e].
    + destruct (status_code =? 200)%Z; [eexists _, _; reflexivity |].
      apply Hnext; [reflexivity |]. rewrite !requests_sent_log. lia.
    + rewrite H0; [| simpl; lia]. apply Hnext; [reflexivity |].
      rewrite !requests_sent_log. lia.
Qed.

Lemma check_health_unfold h :
  check_health h
  = check_health_from (default "8501" (environ h !! "PORT")) (seq 0 max_attempts) h.
Proof. reflexivity. Qed.

End HealthCheckFacts.

(** C5.  As long as every attempt within the budget gets a response or
    fails with a connection failure or timeout, [check_health] returns and
    does not raise.  It returns true at the first attempt that receives
    status 200, having issued exactly that many GET requests (with one sleep
    after each failed attempt), and returns false after exactly
    [max_attempts] = 30 GET requests when no attempt receives status 200. *)
Theorem check_health_attempts (h : HealthCheck.host) :
  let sent := HealthCheck.requests_sent (HealthCheck.trace h) in
  let slept := HealthCheck.sleeps (HealthCheck.trace h) in
  (forall k, (k < HealthCheck.max_attempts)%nat ->
     retryable (HealthCheck.network h (sent + k))) ->
  (exists b h', HealthCheck.check_health h = (Returned b, h'))
  /\ (forall k, (k < HealthCheck.max_attempts)%nat ->
        succeeds (HealthCheck.network h (sent + k)) = true ->
        (forall j, (j < k)%nat -> succeeds (HealthCheck.network h (sent + j)) = false) ->
        exists h',
          HealthCheck.check_health h = (Returned true, h')
          /\ HealthCheck.requests_sent (HealthCheck.trace h') = (sent + (k + 1))%nat
          /\ HealthCheck.sleeps (HealthCheck.trace h') = (slept + k)%nat)
  /\ ((forall k, (k < HealthCheck.max_attempts)%nat ->
         succeeds (HealthCheck.network h (sent + k)) = false) ->
      exists h',
        HealthCheck.check_health h = (Returned false, h')
        /\ HealthCheck.requests_sent (HealthCheck.trace h')
           = (sent + HealthCheck.max_attempts)%nat
        /\ HealthCheck.sleeps (HealthCheck.trace h')
           = (slept + HealthCheck.max_attempts)%nat).
Proof.
  intros sent slept Hr. subst sent slept. rewrite check_health_unfold.
  split; [| split].
  - apply check_health_from_returns. rewrite length_seq. exact Hr.
  - intros k Hk Hpass Hfail. apply check_health_from_passes.
    + rewrite length_seq. exact Hk.
    + intros j Hj. split; [apply Hr; lia | apply Hfail, Hj].
    + exact Hpass.
  - intros Hfail.
    destruct (check_health_from_exhausts
                (default "8501" (HealthCheck.environ h !! "PORT"))
                (seq 0 HealthCheck.max_attempts) h) as (h' & Eq & Hn & Hs).
    + rewrite length_seq. intros j Hj. split; [apply Hr, Hj | apply Hfail, Hj].
    + rewrite length_seq in Hn, Hs. exists h'. auto.
Qed.

Lemma check_health_attempts_witness :
  exists h',
    HealthCheck.check_health flaky_host = (Returned true, h')
    /\ HealthCheck.requests_sent (HealthCheck.trace h') = 3%nat
    /\ HealthCheck.sleeps (HealthCheck.trace h') = 2%nat.
Proof.
  assert (Hr : forall k, (k < HealthCheck.max_attempts)%nat ->
                 retryable (HealthCheck.network flaky_host
                   (HealthCheck.requests_sent (HealthCheck.trace flaky_host) + k))).
  { intros k _. simpl. destruct (k <? 2)%nat; simpl; auto. }
  destruct (check_health_attempts flaky_host Hr) as (_ & Hpass & _).
  apply (Hpass 2%nat).
  - unfold HealthCheck.max_attempts. lia.
  - reflexivity.
  - intros [|[|j]] Hj; [reflexivity | reflexivity | lia].
Defined.

(** ** The artifact store *)

(** One iteration of the lookup loop, by cases on the candidate. *)
Lemma test_model_loading_from_cons G (p : string) (rest : list string) (w : world G) :
  (~ present (fs w) p
   /\ TestModels.test_model_loading_from G (p :: rest) w
      = TestModels.test_model_loading_from G rest w)
  \/ (exists v, loads (fs w) p v
       /\ TestModels.test_model_loading_from G (p :: rest) w
          = (Returned (Some p, Some v), say (say w [testing_line p]) [loaded_line p]))
  \/ (exists e, present (fs w) p /\ (forall u, ~ loads (fs w) p u)
       /\ TestModels.test_model_loading_from G (p :: rest) w
          = TestModels.test_model_loading_from G rest
              (say (say w [testing_line p]) [failed_line p e])).
Proof.
  assert (Step :
    TestModels.test_model_loading_from G (p :: rest) w
    = match nodes (fs w) !! p with
      | None => TestModels.test_model_loading_from G rest w
      | Some Directory =>
          TestModels.test_model_loading_from G rest
            (say (say w [testing_line p])
               [failed_line p (Exn IsADirectoryError ("[Errno 21] Is a directory: " ++ p))])
      | Some (RegularFile c) =>
          if bool_decide (p ∈ denied (fs w))
          then TestModels.test_model_loading_from G rest
                 (say (say w [testing_line p])
                    [failed_line p
                       (Exn PermissionError ("[Errno 13] Permission denied: " ++ p))])
          else match c with
               | Pickle v =>
                   (Returned (Some p, Some v),
                    say (say w [testing_line p]) [loaded_line p])
               | Corrupt why =>
                   TestModels.test_model_loading_from G rest
                     (say (say w [testing_line p])
                        [failed_line p (Exn UnpicklingError why)])
               | Empty =>
                   TestModels.test_model_loading_from G rest
                     (say (say w [testing_line p])
                        [failed_line p (Exn EOFError "Ran out of input")])
               end
      end).
  { cbn [TestModels.test_model_loading_from].
    unfold bind, os_path_exists, try_except, print, open_rb, pickle_load, ret, raise, say.
    destruct (nodes (fs w) !! p) as [n|] eqn:E.
    - rewrite bool_decide_eq_true_2 by eauto.
      cbv beta iota. cbn [fs np_random stdout]. rewrite E.
      destruct n as [|[v|why|]]; [reflexivity | | |];
        destruct (bool_decide (p ∈ denied (fs w))); reflexivity.
    - rewrite bool_decide_eq_false_2 by (intros [? ?]; discriminate). reflexivity. }
  rewrite Step. unfold present, loads.
  destruct (nodes (fs w) !! p) as [[|[v|why|]]|] eqn:E.
  - right. right. eexists. split; [eauto |]. split; [| reflexivity].
    intros u [? _]; discriminate.
  - destruct (bool_decide (p ∈ denied (fs w))) eqn:D.
    + right. right. eexists. split; [eauto |]. split; [| reflexivity].
      intros u [_ Hd]. apply bool_decide_eq_true in D. contradiction.
    + right. left. exists v. split; [| reflexivity].
      split; [reflexivity |]. apply bool_decide_eq_false in D. exact D.
  - destruct (bool_decide (p ∈ denied (fs w))) eqn:D;
      right; right; eexists; (split; [eauto |]); (split; [| reflexivity]);
      intros u [? _]; discriminate.
  - destruct (bool_decide (p ∈ denied (fs w))) eqn:D;
      right; right; eexists; (split; [eauto |]); (split; [| reflexivity]);
      intros u [? _]; discriminate.
  - left. split; [intros [x Hx]; discriminate | reflexivity].
Qed.

Lemma test_model_loading_from_spec G (paths : list string) : forall w : world G,
  exists res w' lines,
    TestModels.test_model_loading_from G paths w = (Returned res, w')
    /\ w' = say w lines
    /\ first_loadable (fs w) paths res lines.
Proof.
  induction paths as [|p paths IH]; intros w.
  - exists (None, None), w, []. split; [reflexivity |]. split.
    + destruct w. unfold say. simpl. rewrite app_nil_r. reflexivity.
    + exists [], []. repeat split; try reflexivity; intros ? H; inversion H.
  - destruct (test_model_loading_from_cons G p paths w)
      as [[Habs ->] | [(v & Hv & ->) | (e & Hp & Hnl & ->)]].
    + destruct (IH w) as (res & w' & lines & Eq & Ew & sk & rest & Es & Hsk & Hres & Hf & Hl).
      exists res, w', lines. split; [exact Eq |]. split; [exact Ew |].
      exists (p :: sk), rest. split; [simpl; congruence |]. split; [| split; [exact Hres |]].
      * intros q Hq u Hu. apply elem_of_cons in Hq as [-> | Hq]; [| exact (Hsk q Hq u Hu)].
        apply Habs. destruct Hu as [Hu _]. unfold present. rewrite Hu. eauto.
      * split.
        -- intros q Hq Hpq. apply elem_of_cons in Hq as [-> | Hq];
             [contradiction | exact (Hf q Hq Hpq)].
        -- intros line Hline. destruct (Hl line Hline) as (q & Hq & Hrest).
           exists q. split; [right; exact Hq | exact Hrest].
    + exists (Some p, Some v), (say (say w [testing_line p]) [loaded_line p]),
        [testing_line p; loaded_line p].
      split; [reflexivity |]. split.
      * unfold say. simpl. rewrite <- app_assoc. reflexivity.
      * exists [], (p :: paths). split; [reflexivity |].
        split; [intros ? H; inversion H |]. split; [eauto |].
        split; [intros ? H; inversion H |].
        intros line Hline. exists p. split; [left |].
        assert (Hp : present (fs w) p) by (destruct Hv as [Hv _]; unfold present; rewrite Hv; eauto).
        split; [exact Hp |].
        apply elem_of_cons in Hline as [-> | Hline]; [auto |].
        apply elem_of_cons in Hline as [-> | Hline]; [auto | inversion Hline].
    + destruct (IH (say (say w [testing_line p]) [failed_line p e]))
        as (res & w' & lines & Eq & Ew & sk & rest & Es & Hsk & Hres & Hf & Hl).
      simpl fs in *.
      exists res, w', (testing_line p :: failed_line p e :: lines).
      split; [exact Eq |]. split.
      * rewrite Ew. unfold say. simpl. rewrite <- !app_assoc. reflexivity.
      * exists (p :: sk), rest. split; [simpl; congruence |].
        split; [| split; [exact Hres |]].
        -- intros q Hq u Hu. apply elem_of_cons in Hq as [-> | Hq];
             [exact (Hnl u Hu) | exact (Hsk q Hq u Hu)].
        -- split.
           ++ intros q Hq Hpq. apply elem_of_cons in Hq as [-> | Hq].
              ** exists e. right. left.
              ** destruct (Hf q Hq Hpq) as [e' He']. exists e'. right. right. exact He'.
           ++ intros line Hline.
              apply elem_of_cons in Hline as [-> | Hline];
                [exists p; split; [left |]; auto |].
              apply elem_of_cons in Hline as [-> | Hline];
                [exists p; split; [left |]; eauto |].
              destruct (Hl line Hline) as (q & Hq & Hrest).
              exists q. split; [right; exact Hq | exact Hrest].
Qed.



Lemma create_simple_fallback_model_picklable G (w : world G) :
  wp (CreateFallbackModel.create_simple_fallback_model G)
     (fun a w' => picklable (VDict a) = true /\ fs w' = fs w) w.
Proof.
  unfold CreateFallbackModel.create_simple_fallback_model.
  apply wp_bind, wp_print. apply wp_bind.
  unfold wp at 1. unfold lift_rng. cbn [np_random fs stdout].
  pose proof (training_data_returns G 1000 (np_random w)) as H.
  unfold wp in H.
  destruct (CreateFallbackModel.training_data G 1000 (np_random w))
    as [[[[X y_env] y_circ]|e] s']; [| contradiction].
  apply wp_ret. split; [vm_compute; reflexivity | reflexivity].
Qed.

(** The sibling in [create_fallback_model.py] creates the directory first:
    with no [models] directory, nothing denied and room on the disk, it
    returns true, and afterwards the directory exists and the file holds
    the pickled artifact. *)
Lemma save_fallback_model_creates_directory G (w : world G) :
  nodes (fs w) !! "models" = None ->
  nodes (fs w) !! "models/railway_fallback_model.pkl" = None ->
  denied (fs w) = ∅ ->
  disk_full (fs w) = false ->
  exists a w',
    CreateFallbackModel.save_fallback_model G w = (Returned true, w')
    /\ nodes (fs w') !! "models" = Some Directory
    /\ nodes (fs w') !! "models/railway_fallback_model.pkl"
       = Some (RegularFile (Pickle (VDict a))).
Proof.
  intros Hdir Hfile Hden Hfull.
  unfold CreateFallbackModel.save_fallback_model.
  unfold bind at 1. unfold os_makedirs. rewrite Hdir, Hden.
  rewrite bool_decide_eq_false_2 by apply not_elem_of_empty.
  unfold bind at 1.
  match goal with
  | |- context [CreateFallbackModel.create_simple_fallback_model G ?w1] =>
      pose proof (create_simple_fallback_model_picklable G w1) as H;
      apply wp_returned in H as (a & w2 & -> & Hp & Hfs)
  end.
  cbn [fs with_fs] in Hfs.
  exists a. unfold try_except, bind, open_wb, pickle_dump, print, ret.
  change (dirname "models/railway_fallback_model.pkl") with "models".
  unfold is_directory. cbn [String.eqb Ascii.eqb Bool.eqb].
  rewrite Hfs. cbn [nodes denied disk_full with_nodes with_fs fs].
  rewrite lookup_insert_eq. cbn [negb].
  rewrite lookup_insert_ne by discriminate. rewrite Hfile, Hden.
  rewrite bool_decide_eq_false_2 by apply not_elem_of_empty.
  cbn [fs with_fs with_nodes truncated nodes denied disk_full]. rewrite Hp. cbn [negb].
  rewrite Hfull. cbn [andb]. eexists. split; [reflexivity |].
  cbn [fs with_fs with_nodes nodes]. split.
  - rewrite lookup_insert_ne by discriminate.
    rewrite lookup_insert_ne by discriminate. apply lookup_insert_eq.
  - apply lookup_insert_eq.
Qed.

(** Whatever goes wrong while opening or writing, [save_fallback_model] of
    [test_models.py] returns a boolean and does not raise. *)
Lemma save_fallback_model_returns G (w : world G) (model_data : value) :
  exists b w', TestModels.save_fallback_model G model_data w = (Returned b, w').
Proof.
  unfold TestModels.save_fallback_model, try_except.
  destruct (bind _ _ w) as [[b | e] w'] eqn:E; [eauto |].
  assert (He : is_Exception e = true).
  { revert E. unfold bind, open_wb, pickle_dump, print, ret.
    repeat match goal with
           | |- context [if ?c then _ else _] => destruct c
           | |- context [match ?o with Some _ => _ | None => _ end] => destruct o
           | |- context [match ?n with Directory => _ | RegularFile _ => _ end] => destruct n
           end;
      intros [= <- _]; reflexivity. }
  rewrite He. eexists _, _. reflexivity.
Qed.

(** C7, evaluated on the code.  [save_fallback_model] of [test_models.py]
    opens [models/fallback_model.pkl] without creating [models] first: when
    that directory does not exist the save does not succeed.  It returns
    false with the [FileNotFoundError] logged, and creates nothing. *)
Theorem save_without_models_directory_fails (G : BitGenerator) (w : world G)
    (model_data : value) :
  nodes (fs w) !! "models" = None ->
  exists e w',
    TestModels.save_fallback_model G model_data w = (Returned false, w')
    /\ exn_cls e = FileNotFoundError
    /\ fs w' = fs w
    /\ stdout w' = (stdout w ++ [save_failed_line e])%list.
Proof.
  intros Hdir. unfold TestModels.save_fallback_model, try_except.
  unfold bind at 1. unfold open_wb.
  change (dirname "models/fallback_model.pkl") with "models".
  unfold is_directory. cbn [String.eqb Ascii.eqb Bool.eqb]. rewrite Hdir.
  cbn [negb is_Exception exn_cls].
  exists (Exn FileNotFoundError
            ("[Errno 2] No such file or directory: " ++ "models/fallback_model.pkl")).
  eexists. split; [reflexivity |]. repeat split.
Qed.

Lemma save_without_models_directory_fails_witness :
  exists e w',
    TestModels.save_fallback_model counter_gen (VDict ∅) (fresh_world counter_gen 0%Z)
    = (Returned false, w')
    /\ exn_cls e = FileNotFoundError
    /\ fs w' = empty_fs
    /\ stdout w' = [save_failed_line e].
Proof.
  apply (save_without_models_directory_fails counter_gen (fresh_world counter_gen 0%Z)).
  reflexivity.
Defined.

(** * Further properties of the scripts *)

(** ** The health check *)

Section HealthCheckMore.
Import HealthCheck.

Lemma check_health_from_propagates port (l : list nat) :
  forall (h : host) (k : nat) (e : exn),
  (k < length l)%nat ->
  (forall j, (j < k)%nat ->
     retryable (network h (requests_sent (trace h) + j))
     /\ succeeds (network h (requests_sent (trace h) + j)) = false) ->
  network h (requests_sent (trace h) + k) = Fails e ->
  is_RequestException e = false ->
  exists h',
    check_health_from port l h = (Raised e, h')
    /\ requests_sent (trace h') = (requests_sent (trace h) + (k + 1))%nat
    /\ sleeps (trace h') = (sleeps (trace h) + k)%nat.
Proof.
  induction l as [|attempt rest IH]; intros h k e Hk Hfail Hraise He;
    simpl in Hk; [lia |].
  destruct (check_health_from_cons port attempt rest h) as (passed & failed & ->).
  cbv zeta. destruct k as [|k].
  - rewrite Nat.add_0_r in Hraise. rewrite Hraise, He.
    eexists. split; [reflexivity |]. rewrite !requests_sent_log, !sleeps_log. lia.
  - destruct (Hfail 0%nat) as [Hr Hs]; [lia |]. rewrite Nat.add_0_r in Hr, Hs.
    assert (Hnext : forall h1, network h1 = network h ->
              requests_sent (trace h1) = (requests_sent (trace h) + 1)%nat ->
              sleeps (trace h1) = (sleeps (trace h) + 1)%nat ->
              exists h',
                check_health_from port rest h1 = (Raised e, h')
                /\ requests_sent (trace h')
                   = (requests_sent (trace h) + (Datatypes.S k + 1))%nat
                /\ sleeps (trace h') = (sleeps (trace h) + Datatypes.S k)%nat).
    { intros h1 Hnet Hsent Hslept.
      destruct (IH h1 k e) as (h' & Eq & Hn & Hsl); try assumption; [lia | | |].
      - intros j Hj. rewrite Hnet, Hsent.
        replace (requests_sent (trace h) + 1 + j)%nat
          with (requests_sent (trace h) + Datatypes.S j)%nat by lia.
        apply Hfail. lia.
      - rewrite Hnet, Hsent.
        replace (requests_sent (trace h) + 1 + k)%nat
          with (requests_sent (trace h) + Datatypes.S k)%nat by lia.
        exact Hraise.
      - exists h'. split; [exact Eq |]. lia. }
    destruct (network h (requests_sent (trace h))) as [status_code | e0];
      simpl in Hr, Hs; [rewrite Hs | rewrite Hr];
      (apply Hnext; [reflexivity | rewrite !requests_sent_log; lia
                    | rewrite !sleeps_log; lia]).
Qed.

(** X1.  [check_health] catches [RequestException] only.  When the first
    attempts are answered without a 200 or fail with a request exception,
    and the next attempt raises any other exception, that exception leaves
    [check_health] right after that GET: nothing is printed for it and no
    pause follows. *)
Theorem check_health_propagates (h : HealthCheck.host) (k : nat) (e : exn) :
  let sent := HealthCheck.requests_sent (HealthCheck.trace h) in
  let slept := HealthCheck.sleeps (HealthCheck.trace h) in
  (k < HealthCheck.max_attempts)%nat ->
  (forall j, (j < k)%nat ->
     retryable (HealthCheck.network h (sent + j))
     /\ succeeds (HealthCheck.network h (sent + j)) = false) ->
  HealthCheck.network h (sent + k) = HealthCheck.Fails e ->
  is_RequestException e = false ->
  exists h',
    HealthCheck.check_health h = (Raised e, h')
    /\ HealthCheck.requests_sent (HealthCheck.trace h') = (sent + (k + 1))%nat
    /\ HealthCheck.sleeps (HealthCheck.trace h') = (slept + k)%nat.
Proof.
  intros sent slept Hk Hfail Hraise He. subst sent slept.
  rewrite check_health_unfold.
  apply check_health_from_propagates;
    [rewrite length_seq; exact Hk | assumption | assumption | assumption].
Qed.

Lemma check_health_propagates_witness :
  exists h',
    HealthCheck.check_health interrupted_host = (Raised (Exn KeyboardInterrupt ""), h')
    /\ HealthCheck.requests_sent (HealthCheck.trace h') = 2%nat
    /\ HealthCheck.sleeps (HealthCheck.trace h') = 1%nat.
Proof.
  apply (check_health_propagates interrupted_host 1 (Exn KeyboardInterrupt "")).
  - unfold HealthCheck.max_attempts. lia.
  - intros [|j] Hj; [split; [exact I | reflexivity] | lia].
  - reflexivity.
  - reflexivity.
Defined.

Lemma requests_sent_app t1 t2 :
  requests_sent (t1 ++ t2) = (requests_sent t1 + requests_sent t2)%nat.
Proof. induction t1 as [|[] t1 IH]; simpl; rewrite ?IH; reflexivity. Qed.

Lemma sleeps_app t1 t2 : sleeps (t1 ++ t2) = (sleeps t1 + sleeps t2)%nat.
Proof. induction t1 as [|[] t1 IH]; simpl; rewrite ?IH; reflexivity. Qed.

Lemma check_health_from_trace port (l : list nat) : forall h : host,
  exists new,
    trace (snd (check_health_from port l h)) = (trace h ++ new)%list
    /\ Forall (well_formed_event port) new
    /\ (requests_sent new <= length l)%nat
    /\ (sleeps new <= requests_sent new)%nat
    /\ environ (snd (check_health_from port l h)) = environ h
    /\ network (snd (check_health_from port l h)) = network h.
Proof.
  induction l as [|attempt rest IH]; intros h.
  - eexists [Print _]. split; [reflexivity |].
    split; [repeat constructor |]. simpl. auto.
  - destruct (check_health_from_cons port attempt rest h) as (passed & failed & ->).
    cbv zeta.
    assert (Hnext : forall (h1 : host) (mid : list event),
              trace h1 = (trace h ++ Get (health_url port) 5 :: mid)%list ->
              Forall (well_formed_event port) mid ->
              requests_sent mid = 0%nat -> sleeps mid = 1%nat ->
              environ h1 = environ h -> network h1 = network h ->
              exists new,
                trace (snd (check_health_from port rest h1)) = (trace h ++ new)%list
                /\ Forall (well_formed_event port) new
                /\ (requests_sent new <= Datatypes.S (length rest))%nat
                /\ (sleeps new <= requests_sent new)%nat
                /\ environ (snd (check_health_from port rest h1)) = environ h
                /\ network (snd (check_health_from port rest h1)) = network h).
    { intros h1 mid Ht Hmid Hreq Hsl Henv Hnet.
      destruct (IH h1) as (new & Et & Hwf & Hn & Hs & Hen & Hne).
      exists (Get (health_url port) 5 :: mid ++ new)%list.
      split; [rewrite Et, Ht, <- app_assoc; reflexivity |].
      split; [constructor; [split; reflexivity | apply Forall_app; auto] |].
      simpl. rewrite requests_sent_app, sleeps_app, Hreq, Hsl.
      repeat split; try lia; congruence. }
    destruct (network h (requests_sent (trace h))) as [status_code | e].
    + destruct (status_code =? 200)%Z.
      * exists [Get (health_url port) 5; Print passed]. simpl.
        rewrite <- app_assoc. repeat split; auto; try lia.
        repeat constructor; reflexivity.
      * apply (Hnext _ [Sleep 2]); simpl; auto.
        -- rewrite <- app_assoc. reflexivity.
        -- repeat constructor.
    + destruct (is_RequestException e).
      * apply (Hnext _ [Print (failed e); Sleep 2]); simpl; auto.
        -- rewrite <- !app_assoc. reflexivity.
        -- repeat constructor.
      * exists [Get (health_url port) 5]. simpl. repeat split; auto; try lia.
        repeat constructor; reflexivity.
Qed.

(** X2.  Whatever the network does, one call of [check_health] only
    appends events: every GET goes to the health URL of the port taken from
    the environment variable PORT (8501 when it is unset) with a 5 second
    timeout, every pause lasts 2 seconds, at most [max_attempts] = 30
    requests are issued and there is never more than one pause per request.
    The environment is left as it was. *)
Theorem check_health_trace (h : HealthCheck.host) :
  let port := default "8501" (HealthCheck.environ h !! "PORT") in
  exists new,
    HealthCheck.trace (snd (HealthCheck.check_health h))
    = (HealthCheck.trace h ++ new)%list
    /\ Forall (well_formed_event port) new
    /\ (HealthCheck.requests_sent new <= HealthCheck.max_attempts)%nat
    /\ (HealthCheck.sleeps new <= HealthCheck.requests_sent new)%nat
    /\ HealthCheck.environ (snd (HealthCheck.check_health h)) = HealthCheck.environ h.
Proof.
  intros port. rewrite check_health_unfold.
  destruct (check_health_from_trace port (seq 0 max_attempts) h)
    as (new & Et & Hwf & Hn & Hs & Hen & _).
  rewrite length_seq in Hn. exists new. auto.
Qed.

Lemma prints_app t1 t2 : prints (t1 ++ t2) = (prints t1 + prints t2)%nat.
Proof. induction t1 as [|[] t1 IH]; simpl; rewrite ?IH; reflexivity. Qed.

Lemma check_health_from_silent port (l : list nat) : forall h : host,
  (forall j, (j < length l)%nat ->
     exists status_code,
       network h (requests_sent (trace h) + j) = Response status_code) ->
  exists new,
    trace (snd (check_health_from port l h)) = (trace h ++ new)%list
    /\ prints new = 1%nat.
Proof.
  induction l as [|attempt rest IH]; intros h Hresp.
  - eexists [Print _]. split; reflexivity.
  - destruct (check_health_from_cons port attempt rest h) as (passed & failed & ->).
    cbv zeta. destruct (Hresp 0%nat) as [status_code E]; [simpl; lia |].
    rewrite Nat.add_0_r in E. rewrite E.
    destruct (status_code =? 200)%Z.
    + eexists [Get _ 5; Print passed]. simpl. rewrite <- app_assoc. auto.
    + match goal with
      | |- context [check_health_from port rest ?h1] =>
          destruct (IH h1) as (new & Et & Hp)
      end.
      * intros j Hj. rewrite !requests_sent_log. simpl network.
        replace (requests_sent (trace h) + 1 + 0 + j)%nat
          with (requests_sent (trace h) + Datatypes.S j)%nat by lia.
        apply Hresp. simpl. lia.
      * eexists (Get _ 5 :: Sleep 2 :: new). split; [| simpl; exact Hp].
        rewrite Et. simpl. rewrite <- !app_assoc. reflexivity.
Qed.

(** X3.  A response with a status other than 200 is retried without a
    word: when every attempt within the budget gets a response, whatever
    its status, the only line [check_health] prints is its last one. *)
Theorem check_health_silent_on_status (h : HealthCheck.host) :
  (forall k, (k < HealthCheck.max_attempts)%nat ->
     exists status_code,
       HealthCheck.network h (HealthCheck.requests_sent (HealthCheck.trace h) + k)
       = HealthCheck.Response status_code) ->
  exists new,
    HealthCheck.trace (snd (HealthCheck.check_health h))
    = (HealthCheck.trace h ++ new)%list
    /\ prints new = 1%nat.
Proof.
  intros Hresp. rewrite check_health_unfold.
  apply check_health_from_silent. rewrite length_seq. exact Hresp.
Qed.

Lemma check_health_silent_on_status_witness :
  exists new,
    HealthCheck.trace (snd (HealthCheck.check_health unavailable_host))
    = (HealthCheck.trace unavailable_host ++ new)%list
    /\ prints new = 1%nat.
Proof.
  apply (check_health_silent_on_status unavailable_host).
  intros k _. exists 503%Z. reflexivity.
Defined.

Lemma first_success (f : nat -> bool) (n : nat) :
  (exists k, (k < n)%nat /\ f k = true /\ forall j, (j < k)%nat -> f j = false)
  \/ (forall k, (k < n)%nat -> f k = false).
Proof.
  induction n as [|n [(k & Hk & Hf & Hb) | Hnone]].
  - right. intros k Hk. lia.
  - left. exists k. split; [lia | auto].
  - destruct (f n) eqn:E.
    + left. exists n. split; [lia |]. split; [exact E | exact Hnone].
    + right. intros k Hk. destruct (Nat.eq_dec k n) as [-> | Hne]; [exact E |].
      apply Hnone. lia.
Qed.

(** X4.  The exit status of the script.  As long as every attempt within
    the budget gets a response or fails with a request exception, the
    script ends with status 0 when some attempt within the budget receives
    status 200 and with status 1 otherwise. *)
Theorem health_check_exit_status (h : HealthCheck.host) :
  let sent := HealthCheck.requests_sent (HealthCheck.trace h) in
  (forall k, (k < HealthCheck.max_attempts)%nat ->
     retryable (HealthCheck.network h (sent + k))) ->
  exists code h',
    HealthCheck.main h = (Returned code, h')
    /\ (code = 0%Z \/ code = 1%Z)
    /\ (code = 0%Z <->
        exists k, (k < HealthCheck.max_attempts)%nat
                  /\ succeeds (HealthCheck.network h (sent + k)) = true).
Proof.
  intros sent Hr. subst sent. unfold main, bind. rewrite check_health_unfold.
  destruct (first_success
              (fun k => succeeds (network h (requests_sent (trace h) + k)))
              max_attempts) as [(k & Hk & Hpass & Hfail) | Hnone].
  - destruct (check_health_from_passes
                (default "8501" (environ h !! "PORT")) (seq 0 max_attempts) h k)
      as (h' & -> & _); [rewrite length_seq; exact Hk | | exact Hpass |].
    + intros j Hj. split; [apply Hr; lia | apply Hfail, Hj].
    + exists 0%Z, h'. split; [reflexivity |]. split; [auto |].
      split; [intros _; exists k; auto | reflexivity].
  - destruct (check_health_from_exhausts
                (default "8501" (environ h !! "PORT")) (seq 0 max_attempts) h)
      as (h' & -> & _).
    + rewrite length_seq. intros j Hj. split; [apply Hr, Hj | apply Hnone, Hj].
    + exists 1%Z, h'. split; [reflexivity |]. split; [auto |].
      split; [discriminate |]. intros (k & Hk & Hpass).
      rewrite (Hnone k Hk) in Hpass. discriminate.
Qed.

Lemma health_check_exit_status_witness :
  exists h', HealthCheck.main flaky_host = (Returned 0%Z, h').
Proof.
  destruct (health_check_exit_status flaky_host) as (code & h' & Eq & _ & Hcode).
  - intros k _. simpl. destruct (k <? 2)%nat; simpl; auto.
  - exists h'. rewrite Eq. f_equal. f_equal. apply Hcode.
    exists 2%nat. split; [unfold HealthCheck.max_attempts; lia | reflexivity].
Defined.

End HealthCheckMore.

(** ** The artifact store *)

Lemma test_model_loading_from_log G (paths : list string) : forall w : world G,
  exists skipped rest ls,
    paths = (skipped ++ rest)%list
    /\ skipped_log (fs w) skipped ls
    /\ stdout (snd (TestModels.test_model_loading_from G paths w))
       = (stdout w ++ ls
          ++ match rest with
             | p :: _ => [testing_line p; loaded_line p]
             | [] => []
             end)%list
    /\ match rest with
       | p :: _ =>
           exists v, loads (fs w) p v
                     /\ fst (TestModels.test_model_loading_from G paths w)
                        = Returned (Some p, Some v)
       | [] => fst (TestModels.test_model_loading_from G paths w) = Returned (None, None)
       end.
Proof.
  induction paths as [|p paths IH]; intros w.
  - exists [], [], []. simpl. rewrite app_nil_r. repeat split. constructor.
  - destruct (test_model_loading_from_cons G p paths w)
      as [[Habs ->] | [(v & Hv & ->) | (e & Hp & Hnl & ->)]].
    + destruct (IH w) as (sk & rest & ls & Es & Hsk & Hout & Hres).
      exists (p :: sk), rest, ls. split; [simpl; congruence |].
      split; [constructor; assumption | auto].
    + exists [], (p :: paths), []. split; [reflexivity |]. split; [constructor |].
      split; [simpl; rewrite <- app_assoc; reflexivity | eauto].
    + destruct (IH (say (say w [testing_line p]) [failed_line p e]))
        as (sk & rest & ls & Es & Hsk & Hout & Hres).
      simpl fs in *. exists (p :: sk), rest, (testing_line p :: failed_line p e :: ls).
      split; [simpl; congruence |]. split; [constructor; assumption |].
      split; [| exact Hres].
      rewrite Hout. simpl. rewrite <- !app_assoc. reflexivity.
Qed.

(** X5.  The exact output of [test_model_loading].  The candidates are
    tried in order and the search stops at the first that loads: for every
    earlier candidate that is present it prints a testing line followed by
    a failure line with the cause, for an absent one nothing, for the
    winner a testing line and a success line, and about the candidates
    after the winner it prints nothing, as they are never opened. *)
Theorem test_model_loading_log (G : BitGenerator) (w : world G) :
  exists skipped rest ls,
    TestModels.model_paths = (skipped ++ rest)%list
    /\ skipped_log (fs w) skipped ls
    /\ stdout (snd (TestModels.test_model_loading G w))
       = (stdout w ++ ls
          ++ match rest with
             | p :: _ => [testing_line p; loaded_line p]
             | [] => []
             end)%list
    /\ match rest with
       | p :: _ =>
           exists v, loads (fs w) p v
                     /\ fst (TestModels.test_model_loading G w) = Returned (Some p, Some v)
       | [] => fst (TestModels.test_model_loading G w) = Returned (None, None)
       end.
Proof. apply test_model_loading_from_log. Qed.

(** What [save_fallback_model] of [test_models.py] returns and leaves
    behind, in one equation. *)
Lemma save_fallback_model_eq G (v : value) (w : world G) :
  exists line,
    TestModels.save_fallback_model G v w
    = (Returned (can_open (fs w) "models/fallback_model.pkl"
                 && can_dump (fs w) "models/fallback_model.pkl" v),
       {| np_random := np_random w;
          fs := written (fs w) "models/fallback_model.pkl" v;
          stdout := (stdout w ++ [line])%list |}).
Proof.
  unfold TestModels.save_fallback_model, try_except, bind, open_wb, pickle_dump,
    print, ret, written, can_open, can_dump.
  destruct (is_directory (fs w) (dirname "models/fallback_model.pkl"));
    cbn [negb andb]; [| eexists; reflexivity].
  destruct (nodes (fs w) !! "models/fallback_model.pkl") as [[|c]|] eqn:E;
    cbn [negb andb is_Exception exn_cls]; try (eexists; reflexivity);
    destruct (bool_decide ("models/fallback_model.pkl" ∈ denied (fs w)));
    cbn [negb andb is_Exception exn_cls fs with_fs];
    try (eexists; reflexivity);
    destruct (picklable v); cbn [negb andb is_Exception exn_cls];
    try (eexists; reflexivity);
    destruct (disk_full (truncated (fs w) "models/fallback_model.pkl"));
    cbn [negb andb is_Exception exn_cls fs with_fs np_random stdout];
    try (eexists; reflexivity).
  all: unfold with_nodes; cbn [nodes truncated]; rewrite insert_insert_eq;
    eexists; reflexivity.
Qed.

Lemma can_open_iff (f : filesystem) (dir path : string) :
  dirname path = dir -> dir <> EmptyString ->
  can_open f path = true
  <-> nodes f !! dir = Some Directory
      /\ (nodes f !! path) <> Some Directory
      /\ path ∉ denied f.
Proof.
  intros <- Hne. unfold can_open, is_directory.
  apply String.eqb_neq in Hne. rewrite Hne.
  rewrite !andb_true_iff, !negb_true_iff, bool_decide_eq_false.
  destruct (nodes f !! dirname path) as [[|c]|];
    destruct (nodes f !! path) as [[|c']|];
    intuition (try discriminate; try congruence).
Qed.

Lemma room_after_truncation (f : filesystem) (path : string) :
  disk_full f = false -> disk_full (truncated f path) = false.
Proof. intros H. cbn [truncated disk_full]. rewrite H. reflexivity. Qed.

Lemma written_loads (f : filesystem) (path : string) (v : value) :
  can_open f path = true -> can_dump f path v = true ->
  nodes (written f path v) = <[path := RegularFile (Pickle v)]> (nodes f)
  /\ denied (written f path v) = denied f.
Proof. intros Ho Hd. unfold written. rewrite Ho, Hd. split; reflexivity. Qed.

Lemma written_truncated (f : filesystem) (path : string) (v : value) :
  can_open f path = true -> can_dump f path v = false ->
  written f path v = truncated f path.
Proof. intros Ho Hd. unfold written. rewrite Ho, Hd. reflexivity. Qed.

(** The model on a full device.  Saving over the previous fallback
    succeeds, as truncating it frees its blocks; saving to a target that
    does not exist yet fails and leaves an empty file. *)
Example save_over_previous_fallback_on_full_disk :
  let r := TestModels.save_fallback_model counter_gen (VInt 2)
             (world_on counter_gen 0%Z full_disk_fs) in
  fst r = Returned true
  /\ nodes (fs (snd r)) !! "models/fallback_model.pkl" = Some (RegularFile (Pickle (VInt 2))).
Proof. split; vm_compute; reflexivity. Qed.

Example save_new_fallback_on_full_disk :
  let r := TestModels.save_fallback_model counter_gen (VInt 2)
             (world_on counter_gen 0%Z
                {| nodes := nodes models_dir_fs; denied := ∅; disk_full := true |}) in
  fst r = Returned false
  /\ nodes (fs (snd r)) !! "models/fallback_model.pkl" = Some (RegularFile Empty).
Proof. split; vm_compute; reflexivity. Qed.

(** X6.  [save_fallback_model] of [test_models.py] never raises and prints
    exactly one line.  On a device with room it returns true exactly when
    [models] is a directory, the target is not a directory, access to it is
    not denied and the object can be pickled; the target then loads back as
    the object saved, and no other path is touched. *)
Theorem save_fallback_model_succeeds_iff (G : BitGenerator) (w : world G) (v : value) :
  disk_full (fs w) = false ->
  exists b w',
    TestModels.save_fallback_model G v w = (Returned b, w')
    /\ (b = true <->
        nodes (fs w) !! "models" = Some Directory
        /\ (nodes (fs w) !! "models/fallback_model.pkl") <> Some Directory
        /\ ("models/fallback_model.pkl" ∉ denied (fs w))
        /\ picklable v = true)
    /\ (b = true ->
        loads (fs w') "models/fallback_model.pkl" v
        /\ forall q, q <> "models/fallback_model.pkl" ->
                     nodes (fs w') !! q = nodes (fs w) !! q)
    /\ (exists line, stdout w' = (stdout w ++ [line])%list).
Proof.
  intros Hroom.
  destruct (save_fallback_model_eq G v w) as [line ->].
  eexists _, _. split; [reflexivity |].
  pose proof (can_open_iff (fs w) "models" "models/fallback_model.pkl" eq_refl)
    as Hopen.
  assert (Hiff : can_open (fs w) "models/fallback_model.pkl"
                 && can_dump (fs w) "models/fallback_model.pkl" v = true
                 <-> nodes (fs w) !! "models" = Some Directory
                     /\ (nodes (fs w) !! "models/fallback_model.pkl") <> Some Directory
                     /\ ("models/fallback_model.pkl" ∉ denied (fs w))
                     /\ picklable v = true).
  { rewrite andb_true_iff, Hopen by discriminate. unfold can_dump.
    rewrite (room_after_truncation _ _ Hroom), andb_true_r. tauto. }
  split; [exact Hiff |]. split; [| eexists; reflexivity].
  intros Hb. apply andb_true_iff in Hb as [Ho Hd].
  cbn [fs]. destruct (written_loads _ _ _ Ho Hd) as [Hn Hden'].
  unfold loads. rewrite Hn, Hden'.
  apply Hopen in Ho as (_ & _ & Hden); [| discriminate].
  split; [split; [apply lookup_insert_eq | exact Hden] |].
  intros q Hq. apply lookup_insert_ne. congruence.
Qed.

Lemma save_fallback_model_succeeds_iff_witness :
  exists b w',
    TestModels.save_fallback_model counter_gen (VInt 2)
      (world_on counter_gen 0%Z fallback_fs) = (Returned b, w')
    /\ (b = true <->
        nodes fallback_fs !! "models" = Some Directory
        /\ (nodes fallback_fs !! "models/fallback_model.pkl") <> Some Directory
        /\ ("models/fallback_model.pkl" ∉ denied fallback_fs)
        /\ picklable (VInt 2) = true)
    /\ (b = true ->
        loads (fs w') "models/fallback_model.pkl" (VInt 2)
        /\ forall q, q <> "models/fallback_model.pkl" ->
                     nodes (fs w') !! q = nodes fallback_fs !! q)
    /\ (exists line, stdout w' = [line]).
Proof.
  apply (save_fallback_model_succeeds_iff counter_gen
           (world_on counter_gen 0%Z fallback_fs) (VInt 2)).
  reflexivity.
Defined.

(** X7.  A save that fails after the file was opened destroys what was
    there.  When the target can be opened but the object cannot be
    pickled, [save_fallback_model] of [test_models.py] returns false and
    leaves the target a regular file that no longer loads, whatever it
    held before. *)
Theorem failed_dump_truncates (G : BitGenerator) (w : world G) (v : value) :
  nodes (fs w) !! "models" = Some Directory ->
  (nodes (fs w) !! "models/fallback_model.pkl") <> Some Directory ->
  "models/fallback_model.pkl" ∉ denied (fs w) ->
  picklable v = false ->
  exists w' c,
    TestModels.save_fallback_model G v w = (Returned false, w')
    /\ nodes (fs w') !! "models/fallback_model.pkl" = Some (RegularFile c)
    /\ (forall u, ~ loads (fs w') "models/fallback_model.pkl" u)
    /\ (forall q, q <> "models/fallback_model.pkl" ->
                  nodes (fs w') !! q = nodes (fs w) !! q).
Proof.
  intros Hdir Hfile Hden Hfail.
  destruct (save_fallback_model_eq G v w) as [line ->].
  assert (Ho : can_open (fs w) "models/fallback_model.pkl" = true).
  { apply (can_open_iff (fs w) "models"); [reflexivity | discriminate | auto]. }
  assert (Hd : can_dump (fs w) "models/fallback_model.pkl" v = false).
  { unfold can_dump. rewrite Hfail. reflexivity. }
  rewrite Ho, Hd. eexists _, Empty. split; [reflexivity |].
  cbn [fs]. rewrite (written_truncated _ _ _ Ho Hd). cbn [nodes truncated].
  split; [apply lookup_insert_eq |]. split.
  - intros u [Hu _]. cbn [nodes truncated] in Hu.
    rewrite lookup_insert_eq in Hu. discriminate.
  - intros q Hq. apply lookup_insert_ne. congruence.
Qed.

Lemma failed_dump_truncates_witness :
  loads fallback_fs "models/fallback_model.pkl" (VInt 1)
  /\ exists w' c,
       TestModels.save_fallback_model counter_gen VFunction
         (world_on counter_gen 0%Z fallback_fs) = (Returned false, w')
       /\ nodes (fs w') !! "models/fallback_model.pkl" = Some (RegularFile c)
       /\ (forall u, ~ loads (fs w') "models/fallback_model.pkl" u)
       /\ (forall q, q <> "models/fallback_model.pkl" ->
                     nodes (fs w') !! q = nodes fallback_fs !! q).
Proof.
  split.
  - split; [reflexivity | apply not_elem_of_empty].
  - apply (failed_dump_truncates counter_gen (world_on counter_gen 0%Z fallback_fs)).
    + reflexivity.
    + discriminate.
    + apply not_elem_of_empty.
    + reflexivity.
Defined.

Lemma bind_returned {S A B} (m : ST S A) (k : A -> ST S B) (s s1 : S) (a : A) :
  m s = (Returned a, s1) -> bind m k s = k a s1.
Proof. intros H. unfold bind. rewrite H. reflexivity. Qed.

Lemma os_makedirs_models G (w : world G) :
  ~ makedirs_refused (fs w) ->
  exists w1,
    os_makedirs G "models" w = (Returned tt, w1)
    /\ fs w1 = with_nodes (fs w) (<["models" := Directory]> (nodes (fs w)))
    /\ np_random w1 = np_random w /\ stdout w1 = stdout w.
Proof.
  intros Hok. unfold os_makedirs, makedirs_refused in *.
  destruct (nodes (fs w) !! "models") as [[|c]|] eqn:E.
  - exists w. repeat split. rewrite insert_id by exact E.
    destruct w as [s [n d b] o]. reflexivity.
  - destruct Hok. left. eauto.
  - destruct (bool_decide ("models" ∈ denied (fs w))) eqn:D.
    + destruct Hok. right. split; [reflexivity |]. apply bool_decide_eq_true in D. exact D.
    + eexists. repeat split.
Qed.

Lemma railway_save_eq G (w : world G) :
  ~ makedirs_refused (fs w) ->
  let f1 := with_nodes (fs w) (<["models" := Directory]> (nodes (fs w))) in
  exists a w',
    CreateFallbackModel.save_fallback_model G w
    = (Returned (can_open f1 "models/railway_fallback_model.pkl"
                 && can_dump f1 "models/railway_fallback_model.pkl" (VDict a)), w')
    /\ fs w' = written f1 "models/railway_fallback_model.pkl" (VDict a)
    /\ artifact_schema_ok a
    /\ picklable (VDict a) = true
    /\ (forall w0, fst (CreateFallbackModel.create_simple_fallback_model G w0) = Returned a).
Proof.
  intros Hok f1. destruct (os_makedirs_models G w Hok) as (w1 & E1 & Hfs1 & _ & _).
  unfold CreateFallbackModel.save_fallback_model.
  rewrite (bind_returned _ _ _ _ _ E1).
  pose proof (wp_conj _ _ _ _
                (create_simple_fallback_model_picklable G w1)
                (create_simple_fallback_model_built G _ w1
                   (training_data_returns G 1000 (np_random w1)))) as H.
  apply wp_returned in H as (a & w2 & E2 & [Hp Hfs2] & (Hschema & _)).
  rewrite (bind_returned _ _ _ _ _ E2).
  exists a.
  assert (Hdet : forall w0,
            fst (CreateFallbackModel.create_simple_fallback_model G w0) = Returned a).
  { intros w0. rewrite (create_simple_fallback_model_outcome G w0 w1), E2. reflexivity. }
  rewrite Hfs1 in Hfs2. fold f1 in Hfs2.
  destruct w2 as [s2 f2 o2]. cbn [fs] in Hfs2. subst f2.
  unfold try_except, bind, open_wb, pickle_dump, print, ret, written, can_open, can_dump.
  cbn [fs]. rewrite Hp.
  assert (Hrest : artifact_schema_ok a /\ true = true
                  /\ (forall w0,
                        fst (CreateFallbackModel.create_simple_fallback_model G w0)
                        = Returned a)) by auto.
  clear E1 E2 Hschema Hdet.
  destruct (is_directory f1 (dirname "models/railway_fallback_model.pkl"));
    cbn [negb andb is_Exception exn_cls];
    [| eexists; split; [reflexivity | split; [reflexivity | exact Hrest]]].
  destruct (nodes f1 !! "models/railway_fallback_model.pkl") as [[|c]|];
    cbn [negb andb is_Exception exn_cls];
    try (eexists; split; [reflexivity | split; [reflexivity | exact Hrest]]; fail);
    destruct (bool_decide ("models/railway_fallback_model.pkl" ∈ denied f1));
    cbn [negb andb is_Exception exn_cls fs with_fs];
    try (eexists; split; [reflexivity | split; [reflexivity | exact Hrest]]; fail);
    destruct (disk_full (truncated f1 "models/railway_fallback_model.pkl"));
    cbn [negb andb is_Exception exn_cls fs with_fs np_random stdout];
    try (eexists; split; [reflexivity | split; [reflexivity | exact Hrest]]; fail).
  all: eexists; split; [reflexivity |]; cbn [fs]; unfold with_nodes;
    cbn [nodes truncated]; rewrite insert_insert_eq;
    split; [reflexivity | exact Hrest].
Qed.

Lemma makedirs_refused_dec (f : filesystem) :
  makedirs_refused f \/ ~ makedirs_refused f.
Proof.
  unfold makedirs_refused.
  destruct (nodes f !! "models") as [[|c]|]; [right | left | ].
  - intros [[c Hc] | [Hc _]]; discriminate.
  - left. eauto.
  - destruct (decide ("models" ∈ denied f)) as [Hd | Hd]; [left | right].
    + right. auto.
    + intros [[c Hc] | [_ Hc]]; [discriminate | contradiction].
Qed.

Lemma railway_save_refused G (w : world G) :
  makedirs_refused (fs w) ->
  exists e,
    CreateFallbackModel.save_fallback_model G w = (Raised e, w)
    /\ (exn_cls e = FileExistsError \/ exn_cls e = PermissionError).
Proof.
  intros Href.
  unfold CreateFallbackModel.save_fallback_model. unfold bind at 1. unfold os_makedirs.
  destruct Href as [[c Hc] | [Hn Hd]].
  - rewrite Hc. eexists. split; [reflexivity | auto].
  - rewrite Hn. rewrite bool_decide_eq_true_2 by exact Hd.
    eexists. split; [reflexivity | auto].
Qed.


(** X9.  With [models] already a directory, or absent and allowed to be
    created, a target that is not a directory and not denied, and room on
    the disk, [save_fallback_model] of [create_fallback_model.py] returns
    true.  Afterwards [models] is a directory, the target loads back as an
    artifact with the expected schema, whatever the target held before is
    replaced, and no other path is touched. *)
Theorem save_fallback_model_writes_artifact (G : BitGenerator) (w : world G) :
  nodes (fs w) !! "models" = Some Directory
  \/ (nodes (fs w) !! "models" = None /\ "models" ∉ denied (fs w)) ->
  (nodes (fs w) !! "models/railway_fallback_model.pkl") <> Some Directory ->
  "models/railway_fallback_model.pkl" ∉ denied (fs w) ->
  disk_full (fs w) = false ->
  exists a w',
    CreateFallbackModel.save_fallback_model G w = (Returned true, w')
    /\ artifact_schema_ok a
    /\ loads (fs w') "models/railway_fallback_model.pkl" (VDict a)
    /\ nodes (fs w') !! "models" = Some Directory
    /\ (forall q, q <> "models/railway_fallback_model.pkl" -> q <> "models" ->
                  nodes (fs w') !! q = nodes (fs w) !! q).
Proof.
  intros Hdir Hfile Hden Hfull.
  assert (Hok : ~ makedirs_refused (fs w)).
  { intros [[c Hc] | [Hn Hd]]; destruct Hdir as [Hdir | [Hdir Hnd]];
      try congruence; contradiction. }
  destruct (railway_save_eq G w Hok) as (a & w' & -> & Hfs & Hschema & Hp & _).
  set (f1 := with_nodes (fs w) (<["models" := Directory]> (nodes (fs w)))) in *.
  assert (Ho : can_open f1 "models/railway_fallback_model.pkl" = true).
  { apply (can_open_iff f1 "models"); [reflexivity | discriminate |].
    unfold f1. cbn [nodes with_nodes denied].
    rewrite lookup_insert_eq, lookup_insert_ne by discriminate. auto. }
  assert (Hd : can_dump f1 "models/railway_fallback_model.pkl" (VDict a) = true).
  { unfold can_dump. rewrite Hp, (room_after_truncation f1 _ Hfull). reflexivity. }
  rewrite Ho, Hd. exists a. eexists. split; [reflexivity |].
  split; [exact Hschema |].
  destruct (written_loads _ _ _ Ho Hd) as [Hn Hden'].
  rewrite Hfs. unfold loads. rewrite Hn, Hden'. unfold f1.
  cbn [nodes with_nodes denied].
  split; [split; [apply lookup_insert_eq | exact Hden] |].
  split.
  - rewrite lookup_insert_ne by discriminate. apply lookup_insert_eq.
  - intros q Hq1 Hq2. rewrite !lookup_insert_ne by congruence. reflexivity.
Qed.

Lemma save_fallback_model_writes_artifact_witness :
  exists a w',
    CreateFallbackModel.save_fallback_model counter_gen
      (world_on counter_gen 0%Z models_dir_fs) = (Returned true, w')
    /\ artifact_schema_ok a
    /\ loads (fs w') "models/railway_fallback_model.pkl" (VDict a)
    /\ nodes (fs w') !! "models" = Some Directory
    /\ (forall q, q <> "models/railway_fallback_model.pkl" -> q <> "models" ->
                  nodes (fs w') !! q = nodes models_dir_fs !! q).
Proof.
  apply (save_fallback_model_writes_artifact counter_gen
           (world_on counter_gen 0%Z models_dir_fs)).
  - left. reflexivity.
  - discriminate.
  - apply not_elem_of_empty.
  - reflexivity.
Defined.

(** The first iteration of the lookup loop as an equation. *)
Lemma test_model_loading_from_step G (p : string) (rest : list string) (w : world G) :
  TestModels.test_model_loading_from G (p :: rest) w
  = match nodes (fs w) !! p with
    | None => TestModels.test_model_loading_from G rest w
    | Some Directory =>
        TestModels.test_model_loading_from G rest
          (say (say w [testing_line p])
             [failed_line p (Exn IsADirectoryError ("[Errno 21] Is a directory: " ++ p))])
    | Some (RegularFile c) =>
        if bool_decide (p ∈ denied (fs w))
        then TestModels.test_model_loading_from G rest
               (say (say w [testing_line p])
                  [failed_line p
                     (Exn PermissionError ("[Errno 13] Permission denied: " ++ p))])
        else match c with
             | Pickle v =>
                 (Returned (Some p, Some v),
                  say (say w [testing_line p]) [loaded_line p])
             | Corrupt why =>
                 TestModels.test_model_loading_from G rest
                   (say (say w [testing_line p])
                      [failed_line p (Exn UnpicklingError why)])
             | Empty =>
                 TestModels.test_model_loading_from G rest
                   (say (say w [testing_line p])
                      [failed_line p (Exn EOFError "Ran out of input")])
             end
    end.
Proof.
  cbn [TestModels.test_model_loading_from].
  unfold bind, os_path_exists, try_except, print, open_rb, pickle_load, ret, raise, say.
  destruct (nodes (fs w) !! p) as [n|] eqn:E.
  - rewrite bool_decide_eq_true_2 by eauto.
    cbv beta iota. cbn [fs np_random stdout]. rewrite E.
    destruct n as [|[v|why|]]; [reflexivity | | |];
      destruct (bool_decide (p ∈ denied (fs w))); reflexivity.
  - rewrite bool_decide_eq_false_2 by (intros [? ?]; discriminate). reflexivity.
Qed.

(** What the lookup returns depends on the file system only through the
    candidate paths. *)
Lemma test_model_loading_from_agree G (paths : list string) : forall w1 w2 : world G,
  (forall p, p ∈ paths ->
     nodes (fs w1) !! p = nodes (fs w2) !! p
     /\ bool_decide (p ∈ denied (fs w1)) = bool_decide (p ∈ denied (fs w2))) ->
  fst (TestModels.test_model_loading_from G paths w1)
  = fst (TestModels.test_model_loading_from G paths w2).
Proof.
  induction paths as [|p paths IH]; intros w1 w2 Hagree; [reflexivity |].
  rewrite !test_model_loading_from_step.
  destruct (Hagree p) as [Hn Hd]; [left |]. rewrite Hn, Hd.
  assert (Hrest : forall l1 l2 l3 l4,
            fst (TestModels.test_model_loading_from G paths (say (say w1 l1) l2))
            = fst (TestModels.test_model_loading_from G paths (say (say w2 l3) l4))).
  { intros. apply IH. intros q Hq. simpl. apply Hagree. right. exact Hq. }
  destruct (nodes (fs w2) !! p) as [[|[v|why|]]|].
  - apply Hrest.
  - destruct (bool_decide (p ∈ denied (fs w2))); [apply Hrest | reflexivity].
  - destruct (bool_decide (p ∈ denied (fs w2))); apply Hrest.
  - destruct (bool_decide (p ∈ denied (fs w2))); apply Hrest.
  - apply IH. intros q Hq. apply Hagree. right. exact Hq.
Qed.

Lemma model_paths_apart p :
  p ∈ TestModels.model_paths ->
  p <> "models" /\ p <> "models/fallback_model.pkl"
  /\ p <> "models/railway_fallback_model.pkl".
Proof.
  unfold TestModels.model_paths. intros Hp.
  repeat (apply elem_of_cons in Hp as [-> | Hp]; [repeat split; discriminate |]).
  inversion Hp.
Qed.

Lemma written_agree (f : filesystem) (path : string) (v : value) (p : string) :
  p <> path ->
  nodes (written f path v) !! p = nodes f !! p
  /\ denied (written f path v) = denied f.
Proof.
  intros Hne. unfold written.
  destruct (can_open f path); [destruct (can_dump f path v) |]; [| | auto];
    cbn [nodes with_nodes truncated denied]; rewrite lookup_insert_ne by congruence;
    auto.
Qed.

(** X10.  Neither save function writes to a path that [test_model_loading]
    probes.  Whatever a save did, the lookup returns afterwards what it
    returned before: a fallback artifact written by either script is never
    found by the checker. *)
Theorem saves_invisible_to_lookup (G : BitGenerator) (w : world G) (v : value) :
  fst (TestModels.test_model_loading G (snd (TestModels.save_fallback_model G v w)))
  = fst (TestModels.test_model_loading G w)
  /\ fst (TestModels.test_model_loading G
            (snd (CreateFallbackModel.save_fallback_model G w)))
     = fst (TestModels.test_model_loading G w).
Proof.
  split; apply test_model_loading_from_agree; intros p Hp;
    destruct (model_paths_apart p Hp) as (H1 & H2 & H3).
  - destruct (save_fallback_model_eq G v w) as [line ->]. cbn [snd fs].
    destruct (written_agree (fs w) "models/fallback_model.pkl" v p H2) as (-> & ->).
    auto.
  - destruct (makedirs_refused_dec (fs w)) as [Href | Hok].
    + destruct (railway_save_refused G w Href) as (e & -> & _). auto.
    + destruct (railway_save_eq G w Hok) as (a & w'' & Eq' & Hfs & _).
      rewrite Eq'. cbn [snd]. rewrite Hfs.
      destruct (written_agree
                  (with_nodes (fs w) (<["models" := Directory]> (nodes (fs w))))
                  "models/railway_fallback_model.pkl" (VDict a) p H3) as (-> & ->).
      cbn [nodes with_nodes denied]. rewrite lookup_insert_ne by congruence. auto.
Qed.

(** ** The builders *)

Lemma training_data_features G (HG : BitGenerator_ok G) (n : nat) s :
  wp (CreateFallbackModel.training_data G n)
     (fun r _ => let '(X, y_env, y_circ) := r in feature_matrix_ok n X) s.
Proof.
  eapply wp_mono;
    [| apply (training_data_spec G unit_interval
                (fun z => (0 <= z < Z.of_nat (length CreateFallbackModel.metals))%Z)
                (fun z => (0 <= z < Z.of_nat (length CreateFallbackModel.processes))%Z))].
  - intros [[X y_env] y_circ] s' ([LX MX] & _). split; [exact LX |].
    eapply Forall_impl; [exact MX |]. intros row.
    apply row_matches_weaken. unfold feature_columns.
    repeat (apply List.Forall2_cons;
              [intros x Hx; first [exact Hx
                                  | apply scaled_unit_within; [discriminate | exact Hx]] |]).
    apply List.Forall2_nil.
  - apply (double_range G HG).
  - intros s'. apply (integer_range G HG). reflexivity.
  - intros s'. apply (integer_range G HG). reflexivity.
Qed.

(** In a sorted list every position is the index of the label it holds. *)
Lemma sorted_index_of (l : list string) (i : nat) :
  StronglySorted string_lt l -> (i < length l)%nat ->
  exists label, l !! i = Some label /\ index_of label l = Some i.
Proof.
  intros Hs Hi. destruct (lookup_lt_is_Some_2 l i Hi) as [label Hl].
  exists label. split; [exact Hl |].
  destruct (index_of_elem label l) as [j Hj]; [eapply list_elem_of_lookup_2, Hl |].
  pose proof (index_of_lookup _ _ _ Hj) as Hlj.
  destruct (Nat.lt_trichotomy i j) as [Hlt | [-> | Hgt]]; [| exact Hj |].
  - destruct (string_lt_irrefl label). exact (sorted_lookup_lt _ _ _ _ _ Hs Hl Hlj Hlt).
  - destruct (string_lt_irrefl label). exact (sorted_lookup_lt _ _ _ _ _ Hs Hlj Hl Hgt).
Qed.

Lemma code_decodes (cats : list string) (k : Z) (x : Q) :
  k = Z.of_nat (length (np_unique cats)) ->
  is_code k x ->
  exists label code,
    x = inject_Z (Z.of_nat code)
    /\ LabelEncoder_transform (LabelEncoder_fit LabelEncoder_new cats) label = Some code.
Proof.
  intros -> (z & -> & Hz).
  destruct (sorted_index_of (np_unique cats) (Z.to_nat z) (np_unique_sorted cats))
    as (label & _ & Hidx); [lia |].
  exists label, (Z.to_nat z). split; [rewrite Z2Nat.id by lia; reflexivity |].
  exact Hidx.
Qed.

(** X11.  In the artifact of [create_simple_fallback_model] the codes drawn
    for the categorical columns match the encoders stored beside them:
    every entry of columns 0, 1 and 2 of the training matrix is the code
    that the Metal, Process_Type or End_of_Life encoder gives to one of its
    labels, so every training row can be decoded. *)
Theorem training_codes_decodable (G : BitGenerator) (HG : BitGenerator_ok G)
    (w : world G) :
  wp (CreateFallbackModel.create_simple_fallback_model G)
     (fun a _ => codes_decodable a) w.
Proof.
  eapply wp_mono;
    [| apply (create_simple_fallback_model_built G
                (fun X _ _ => feature_matrix_ok 1000 X)),
         (training_data_features G HG)].
  intros a w' (_ & _ & (X & y_env & y_circ & E1 & _ & [_ HX]) & Em & Ep & Ee).
  exists X, y_env. split; [exact E1 |].
  intros row Hrow field col Hin.
  rewrite Forall_forall in HX. pose proof (HX row Hrow) as Hm.
  unfold feature_columns in Hm.
  inversion Hm as [|P0 x0 sp0 r0 H0 Hm1]; subst.
  inversion Hm1 as [|P1 x1 sp1 r1 H1 Hm2]; subst.
  inversion Hm2 as [|P2 x2 sp2 r2 H2 Hm3]; subst.
  apply elem_of_cons in Hin as [[= -> ->] | Hin].
  { destruct (code_decodes CreateFallbackModel.metals _ _ eq_refl H0)
      as (label & code & -> & Ht).
    eexists _, label, code. split; [exact Em |]. split; [reflexivity | exact Ht]. }
  apply elem_of_cons in Hin as [[= -> ->] | Hin].
  { destruct (code_decodes CreateFallbackModel.processes _ _ eq_refl H1)
      as (label & code & -> & Ht).
    eexists _, label, code. split; [exact Ep |]. split; [reflexivity | exact Ht]. }
  apply elem_of_cons in Hin as [[= -> ->] | Hin].
  { destruct (code_decodes CreateFallbackModel.eol_options _ _ eq_refl H2)
      as (label & code & -> & Ht).
    eexists _, label, code. split; [exact Ee |]. split; [reflexivity | exact Ht]. }
  inversion Hin.
Qed.

Lemma training_codes_decodable_witness :
  BitGenerator_ok counter_gen
  /\ wp (CreateFallbackModel.create_simple_fallback_model counter_gen)
       (fun a _ => codes_decodable a) (fresh_world counter_gen 0%Z).
Proof.
  split; [exact counter_gen_ok |].
  exact (training_codes_decodable counter_gen counter_gen_ok (fresh_world counter_gen 0%Z)).
Defined.

(** What the builders do to the process state, apart from returning. *)
Lemma create_simple_fallback_model_frame G (w : world G) :
  exists a line,
    CreateFallbackModel.create_simple_fallback_model G w
    = (Returned a,
       {| np_random := snd (CreateFallbackModel.training_data G 1000 (np_random w));
          fs := fs w;
          stdout := (stdout w ++ [line])%list |})
    /\ picklable (VDict a) = true.
Proof.
  unfold CreateFallbackModel.create_simple_fallback_model, bind, print, lift_rng.
  cbn [np_random fs stdout].
  pose proof (training_data_returns G 1000 (np_random w)) as H. unfold wp in H.
  destruct (CreateFallbackModel.training_data G 1000 (np_random w))
    as [[[[X y_env] y_circ]|e] s']; [| contradiction].
  eexists _, _. split; [reflexivity |]. vm_compute. reflexivity.
Qed.

Lemma create_fallback_model_frame G (w : world G) :
  exists a line,
    TestModels.create_fallback_model G w
    = (Returned a,
       {| np_random := snd (TestModels.sample_data G 100 (np_random w));
          fs := fs w;
          stdout := (stdout w ++ [line])%list |})
    /\ picklable (VDict a) = true.
Proof.
  unfold TestModels.create_fallback_model, bind, print, lift_rng.
  cbn [np_random fs stdout].
  pose proof (sample_data_returns G 100 (np_random w)) as H. unfold wp in H.
  destruct (TestModels.sample_data G 100 (np_random w))
    as [[[[X y_env] y_circ]|e] s']; [| contradiction].
  eexists _, _. split; [reflexivity |]. vm_compute. reflexivity.
Qed.

(** X12.  The side effects of the builders.  Each builder prints exactly
    one line and leaves the file system alone, but it overwrites the
    process-wide generator: the state of [np.random] after the call is the
    same whatever it was before, so a caller's own seeding is lost. *)
Theorem builders_side_effects (G : BitGenerator) (w w0 : world G) :
  (fs (snd (CreateFallbackModel.create_simple_fallback_model G w)) = fs w
   /\ (exists line,
         stdout (snd (CreateFallbackModel.create_simple_fallback_model G w))
         = (stdout w ++ [line])%list)
   /\ np_random (snd (CreateFallbackModel.create_simple_fallback_model G w))
      = np_random (snd (CreateFallbackModel.create_simple_fallback_model G w0)))
  /\ (fs (snd (TestModels.create_fallback_model G w)) = fs w
      /\ (exists line,
            stdout (snd (TestModels.create_fallback_model G w))
            = (stdout w ++ [line])%list)
      /\ np_random (snd (TestModels.create_fallback_model G w))
         = np_random (snd (TestModels.create_fallback_model G w0))).
Proof.
  split.
  - destruct (create_simple_fallback_model_frame G w) as (a & line & -> & _).
    destruct (create_simple_fallback_model_frame G w0) as (a0 & line0 & -> & _).
    cbn [snd fs stdout np_random]. split; [reflexivity |]. split; [eauto |].
    rewrite (training_data_reseeds G 1000 (np_random w) (np_random w0)). reflexivity.
  - destruct (create_fallback_model_frame G w) as (a & line & -> & _).
    destruct (create_fallback_model_frame G w0) as (a0 & line0 & -> & _).
    cbn [snd fs stdout np_random]. split; [reflexivity |]. split; [eauto |].
    rewrite (sample_data_reseeds G 100 (np_random w) (np_random w0)). reflexivity.
Qed.

(** ** The scripts' entry points *)

Lemma print_eq G (line : string) (w : world G) :
  print G line w = (Returned tt, say w [line]).
Proof. reflexivity. Qed.

Lemma test_model_loading_say G (w : world G) (lines : list string) :
  fst (TestModels.test_model_loading G (say w lines))
  = fst (TestModels.test_model_loading G w).
Proof. apply test_model_loading_from_agree. intros p _. auto. Qed.

Lemma test_models_main_eq G :
  exists a,
    artifact_schema_ok a
    /\ picklable (VDict a) = true
    /\ forall w : world G,
         exists w',
           TestModels.main G w = (Returned tt, w')
           /\ fs w' = (if found (fst (TestModels.test_model_loading G w))
                       then fs w
                       else written (fs w) "models/fallback_model.pkl" (VDict a))
           /\ (found (fst (TestModels.test_model_loading G w)) = true ->
               np_random w' = np_random w).
Proof.
  set (w0 := fresh_world G (rng_seed G 42)).
  destruct (create_fallback_model_frame G w0) as (a & line0 & E0 & Hp).
  exists a. split; [| split; [exact Hp |]].
  { pose proof (create_fallback_model_built G _ w0
                  (sample_data_returns G 100 (np_random w0))) as H.
    apply wp_returned in H as (a' & w' & E & Hs & _).
    rewrite E0 in E. injection E as <- _. exact Hs. }
  intros w. unfold TestModels.main.
  rewrite (bind_returned _ _ _ _ _ (print_eq G _ w)).
  match goal with
  | |- context [say w ?l] =>
      rewrite <- (test_model_loading_say G w l); set (wb := say w l)
  end.
  destruct (test_model_loading_from_spec G TestModels.model_paths wb)
    as ([working_model_path working_model] & w1 & lines & Eq & -> & _).
  fold (TestModels.test_model_loading G) in Eq.
  rewrite (bind_returned _ _ _ _ _ Eq). rewrite Eq. cbn [fst found].
  destruct (is_None working_model); cbn [negb].
  - rewrite (bind_returned _ _ _ _ _ (print_eq G _ _)).
    match goal with |- exists _, bind (TestModels.create_fallback_model G) _ ?w2 = _ /\ _ =>
      destruct (create_fallback_model_frame G w2) as (a2 & line2 & E2 & _);
      assert (Ha : a2 = a)
        by (pose proof (create_fallback_model_outcome G w2 w0) as Ho;
            rewrite E2, E0 in Ho; injection Ho as ->; reflexivity);
      subst a2; rewrite (bind_returned _ _ _ _ _ E2)
    end.
    match goal with |- exists _, bind (TestModels.save_fallback_model G ?v) _ ?w3 = _ /\ _ =>
      destruct (save_fallback_model_eq G v w3) as [line3 E3];
      rewrite (bind_returned _ _ _ _ _ E3)
    end.
    cbn [fs say]. unfold wb. cbn [fs say].
    destruct (can_open (fs w) "models/fallback_model.pkl"
              && can_dump (fs w) "models/fallback_model.pkl" (VDict a)).
    + rewrite (bind_returned _ _ _ _ _ (print_eq G _ _)). rewrite print_eq.
      eexists. split; [reflexivity |]. split; [reflexivity | discriminate].
    + rewrite print_eq.
      eexists. split; [reflexivity |]. split; [reflexivity | discriminate].
  - rewrite (bind_returned _ _ _ _ _ (print_eq G _ _)). rewrite print_eq.
    eexists. split; [reflexivity |]. split; reflexivity.
Qed.

Lemma can_open_written (f : filesystem) (path dir : string) (v : value) :
  dirname path = dir -> dir <> EmptyString -> path <> dir ->
  can_open f path = true -> can_open (written f path v) path = true.
Proof.
  intros Hdir Hne Hdp Ho.
  pose proof Ho as Ho'. apply (can_open_iff f dir) in Ho' as (Hd & _ & Hden); [| assumption ..].
  apply (can_open_iff _ dir); [assumption .. |].
  unfold written. rewrite Ho.
  destruct (can_dump f path v); cbn [nodes with_nodes truncated denied];
    rewrite lookup_insert_ne by exact Hdp; rewrite lookup_insert_eq;
    (split; [exact Hd |]); (split; [discriminate | exact Hden]).
Qed.

Lemma written_twice (f : filesystem) (v : value) :
  written (written f "models/fallback_model.pkl" v) "models/fallback_model.pkl" v
  = written f "models/fallback_model.pkl" v.
Proof.
  destruct (can_open f "models/fallback_model.pkl") eqn:Ho.
  - pose proof (can_open_written f "models/fallback_model.pkl" "models" v eq_refl) as Ho'.
    unfold written at 1. rewrite Ho' by (discriminate || exact Ho). clear Ho'.
    unfold written, can_dump. rewrite Ho. unfold truncated, with_nodes.
    destruct (picklable v); cbn [andb];
      destruct (disk_full f) eqn:Hf;
      destruct (nodes f !! "models/fallback_model.pkl") as [[|[u|why|]]|] eqn:E;
      repeat (cbn [nodes denied disk_full holds_data andb negb];
              rewrite ?Hf, ?E, ?lookup_insert_eq, ?insert_insert_eq);
      reflexivity.
  - unfold written. rewrite Ho. rewrite Ho. reflexivity.
Qed.

(** A candidate that is a pickle of [None] loads, and the script then
    takes it for no model at all: it builds and writes the fallback. *)
Example none_pickle_is_no_model :
  let w := world_on counter_gen 0%Z none_pickle_fs in
  fst (TestModels.test_model_loading counter_gen w)
  = Returned (Some "models/lca_model.pkl", Some VNone)
  /\ found (fst (TestModels.test_model_loading counter_gen w)) = false
  /\ exists a,
       loads (fs (snd (TestModels.main counter_gen w))) "models/fallback_model.pkl" (VDict a).
Proof.
  intros w. split; [vm_compute; reflexivity |]. split; [vm_compute; reflexivity |].
  destruct (test_models_main_eq counter_gen) as (a & _ & Hp & H).
  destruct (H w) as (w' & E & Hfs & _). rewrite E. cbn [snd].
  replace (found (fst (TestModels.test_model_loading counter_gen w))) with false in Hfs
    by (vm_compute; reflexivity).
  exists a. rewrite Hfs.
  assert (Ho : can_open (fs w) "models/fallback_model.pkl" = true)
    by (vm_compute; reflexivity).
  assert (Hd : can_dump (fs w) "models/fallback_model.pkl" (VDict a) = true)
    by (unfold can_dump; rewrite Hp; reflexivity).
  destruct (written_loads _ _ _ Ho Hd) as [Hn Hden].
  unfold loads. rewrite Hn, Hden.
  split; [apply lookup_insert_eq | apply not_elem_of_empty].
Qed.

(** X13.  The [test_models.py] script never ends on an uncaught exception.
    When the lookup returns a model other than [None] it builds no
    fallback: the file system and the state of the random generator are
    left as they were.  Otherwise, no candidate loading or the one that
    loads being a pickle of [None], it builds the fallback artifact and
    saves it: the file system is the one that [save_fallback_model] leaves
    when given an artifact with the expected schema. *)
Theorem test_models_main_returns (G : BitGenerator) (w : world G) :
  exists w',
    TestModels.main G w = (Returned tt, w')
    /\ (found (fst (TestModels.test_model_loading G w)) = true ->
        fs w' = fs w /\ np_random w' = np_random w)
    /\ (found (fst (TestModels.test_model_loading G w)) = false ->
        exists a,
          artifact_schema_ok a
          /\ fs w' = fs (snd (TestModels.save_fallback_model G (VDict a) w))).
Proof.
  destruct (test_models_main_eq G) as (a & Hschema & _ & H).
  destruct (H w) as (w' & E & Hfs & Hrng).
  exists w'. split; [exact E |]. split.
  - intros Hfound. rewrite Hfound in Hfs. auto.
  - intros Hnot. rewrite Hnot in Hfs. exists a. split; [exact Hschema |].
    destruct (save_fallback_model_eq G (VDict a) w) as [line ->]. exact Hfs.
Qed.

(** X14.  When no candidate model loads and the fallback can be written
    ([models] is a directory, the target is neither a directory nor denied,
    the disk has room), the [test_models.py] script leaves a fallback
    behind: [models/fallback_model.pkl] loads as an artifact with the
    expected schema, and no other path is touched. *)
Theorem test_models_main_writes_fallback (G : BitGenerator) (w : world G) :
  fst (TestModels.test_model_loading G w) = Returned (None, None) ->
  nodes (fs w) !! "models" = Some Directory ->
  (nodes (fs w) !! "models/fallback_model.pkl") <> Some Directory ->
  "models/fallback_model.pkl" ∉ denied (fs w) ->
  disk_full (fs w) = false ->
  exists a w',
    TestModels.main G w = (Returned tt, w')
    /\ artifact_schema_ok a
    /\ loads (fs w') "models/fallback_model.pkl" (VDict a)
    /\ (forall q, q <> "models/fallback_model.pkl" ->
                  nodes (fs w') !! q = nodes (fs w) !! q).
Proof.
  intros Hnone Hdir Hfile Hden Hfull.
  destruct (test_models_main_eq G) as (a & Hschema & Hp & H).
  destruct (H w) as (w' & E & Hfs & _).
  exists a, w'. split; [exact E |]. split; [exact Hschema |].
  rewrite Hnone in Hfs. cbn [found is_None negb] in Hfs. rewrite Hfs.
  assert (Ho : can_open (fs w) "models/fallback_model.pkl" = true)
    by (apply (can_open_iff (fs w) "models"); [reflexivity | discriminate | auto]).
  assert (Hd : can_dump (fs w) "models/fallback_model.pkl" (VDict a) = true)
    by (unfold can_dump; rewrite Hp, (room_after_truncation _ _ Hfull); reflexivity).
  destruct (written_loads _ _ _ Ho Hd) as [Hn Hden'].
  unfold loads. rewrite Hn, Hden'.
  split; [split; [apply lookup_insert_eq | exact Hden] |].
  intros q Hq. apply lookup_insert_ne. congruence.
Qed.

Lemma test_models_main_writes_fallback_witness :
  exists a w',
    TestModels.main counter_gen (world_on counter_gen 0%Z models_dir_fs)
    = (Returned tt, w')
    /\ artifact_schema_ok a
    /\ loads (fs w') "models/fallback_model.pkl" (VDict a)
    /\ (forall q, q <> "models/fallback_model.pkl" ->
                  nodes (fs w') !! q = nodes models_dir_fs !! q).
Proof.
  apply (test_models_main_writes_fallback counter_gen
           (world_on counter_gen 0%Z models_dir_fs)).
  - reflexivity.
  - reflexivity.
  - discriminate.
  - apply not_elem_of_empty.
  - reflexivity.
Defined.

(** X15.  Running the [test_models.py] script a second time changes
    nothing more on disk: the fallback it writes is not one of the
    candidates it probes, so the second run rebuilds the same artifact and
    writes it over the first. *)
Theorem test_models_main_idempotent (G : BitGenerator) (w : world G) :
  fs (snd (TestModels.main G (snd (TestModels.main G w))))
  = fs (snd (TestModels.main G w)).
Proof.
  destruct (test_models_main_eq G) as (a & _ & _ & H).
  destruct (H w) as (w1 & E1 & F1 & _). rewrite E1. cbn [snd].
  destruct (H w1) as (w2 & E2 & F2 & _). rewrite E2. cbn [snd].
  assert (Hsame : fst (TestModels.test_model_loading G w1)
                  = fst (TestModels.test_model_loading G w)).
  { apply test_model_loading_from_agree. intros p Hp.
    destruct (model_paths_apart p Hp) as (_ & Hne & _).
    rewrite F1. destruct (found _); [auto |].
    destruct (written_agree (fs w) "models/fallback_model.pkl" (VDict a) p Hne)
      as (-> & ->). auto. }
  rewrite Hsame in F2. rewrite F2, F1.
  destruct (found _); [reflexivity | apply written_twice].
Qed.


(** X17.  Both builders fit before they assemble the artifact, and on
    matching shapes: the environmental regressor and the circularity
    regressor are fitted on the same feature matrix, which has 13 columns,
    and their target matrices have 3 columns and as many rows as the
    feature matrix (1000 in [create_simple_fallback_model], 100 in
    [create_fallback_model]). *)
Theorem builders_fitted_shapes (G : BitGenerator) (w : world G) :
  wp (CreateFallbackModel.create_simple_fallback_model G)
     (fun a _ => fitted_shapes 1000 a) w
  /\ wp (TestModels.create_fallback_model G) (fun a _ => fitted_shapes 100 a) w.
Proof.
  split.
  - eapply wp_mono;
      [| apply (create_simple_fallback_model_built G
                  (fun X y_env y_circ =>
                     (length X = 1000%nat /\ Forall (fun row => length row = 13%nat) X)
                     /\ (length y_env = 1000%nat
                         /\ Forall (fun row => length row = 3%nat) y_env)
                     /\ (length y_circ = 1000%nat
                         /\ Forall (fun row => length row = 3%nat) y_circ)))].
    + intros a w' (_ & _ & (X & y_env & y_circ & E1 & E2 & H) & _).
      exists X, y_env, y_circ. auto.
    + eapply wp_mono;
        [| apply (training_data_spec G (fun _ => True) (fun _ => True) (fun _ => True));
           auto].
      intros [[X y_env] y_circ] s' ([LX MX] & [Le Me] & [Lc Mc]).
      repeat split; try assumption.
      * eapply Forall_impl; [exact MX |]. intros row Hrow.
        apply row_matches_length in Hrow. exact Hrow.
      * eapply Forall_impl; [exact Me |]. intros row (e & m & wt & -> & _). reflexivity.
      * eapply Forall_impl; [exact Mc |]. intros row (c & r & u & -> & _). reflexivity.
  - eapply wp_mono;
      [| apply (create_fallback_model_built G
                  (fun X y_env y_circ =>
                     (length X = 100%nat /\ Forall (fun row => length row = 13%nat) X)
                     /\ (length y_env = 100%nat
                         /\ Forall (fun row => length row = 3%nat) y_env)
                     /\ (length y_circ = 100%nat
                         /\ Forall (fun row => length row = 3%nat) y_circ)))].
    + intros a w' (_ & _ & (X & y_env & y_circ & E1 & E2 & H) & _).
      exists X, y_env, y_circ. auto.
    + eapply wp_mono; [| apply (sample_data_spec G (fun _ => True)); auto].
      intros [[X y_env] y_circ] s' ([LX MX] & [Le Me] & [Lc Mc]).
      repeat split; try assumption.
      * eapply Forall_impl; [exact MX |]. intros row Hrow.
        apply row_matches_length in Hrow. exact Hrow.
      * eapply Forall_impl; [exact Me |].
        intros row (u1 & u2 & u3 & _ & _ & _ & ->). reflexivity.
      * eapply Forall_impl; [exact Mc |].
        intros row (u1 & u2 & u3 & _ & _ & _ & ->). reflexivity.
Qed.
